(** * Model serving pipeline of [src/main.py]: a shallow embedding

    The file embeds the command-line program of [src/main.py]: the helpers
    [get_model_file_name], [get_data_file_name], [get_input_data_topics],
    and the phases of [main] (initialisation of the model registry, fit,
    save, load, watchdog guard and the live prediction loop).

    Conventions.
    - A Python [str] is a [string]: a sequence of code points below 256.
    - A Python [int] is a [Z].
    - A statement that may raise returns a [result]; the exception classes
      that matter are kept apart by [is_Exception], which says whether an
      [except Exception] clause catches them.
    - The class [PredictiveModel] (module [lib/predictive_model]), the
      file system and the Kafka client are not part of [src/]; they are
      parameters of the embedding, bundled in the record [Externals].
    - The command line and the configuration file are read before [main]
      as modelled here starts: it takes the parsed flags, the dict that
      [json.load] returned and the records the consumer delivers. *)

From Stdlib Require Import ZArith String Ascii List Bool Lia QArith.
From Stdlib Require Import Numbers.DecimalString Numbers.DecimalZ Numbers.DecimalPos.
From stdpp Require Import base gmap strings list fin_maps.

Local Open Scope string_scope.
Local Open Scope Z_scope.

(** ** Exceptions and results *)

(** Python values that flow through [main]: what [json.load] and the
    modelled fragment of [eval] produce.  Floats are only carried around,
    never computed with; a float is represented by the rational it denotes. *)
#[warning="-register-all"]
Inductive pyval : Type :=
| VNone
| VBool (b : bool)
| VInt (z : Z)
| VFloat (q : Q)
| VStr (s : string)
| VList (l : list pyval)
| VDict (d : list (string * pyval)).

Inductive exn : Type :=
| SyntaxError
| NameError (name : string)
| TypeError
| KeyError
| IndexError
| ValueError
| AttributeError
| OtherException (cls : string)
| SystemExit (code : pyval)
| KeyboardInterrupt.

(** [except Exception] catches every class but the system-exiting ones,
    which derive from [BaseException] directly. *)
Definition is_Exception (e : exn) : bool :=
  match e with
  | SystemExit _ | KeyboardInterrupt => false
  | _ => true
  end.

Inductive result (A : Type) : Type :=
| Ok (a : A)
| Raise (e : exn).
Arguments Ok {A} a.
Arguments Raise {A} e.

Definition bind {A B : Type} (r : result A) (k : A -> result B) : result B :=
  match r with
  | Ok a => k a
  | Raise e => Raise e
  end.

Notation "'let?' x ':=' r 'in' k" := (bind r (fun x => k))
  (at level 10, x pattern, r at level 100, k at level 200).

(** ** Python string operations used by [main] *)

Module PyStr.

(** [s.split(sep)] for a one-character separator. *)
Fixpoint split (sep : ascii) (s : string) : list string :=
  match s with
  | EmptyString => [EmptyString]
  | String c s' =>
      if Ascii.eqb c sep then EmptyString :: split sep s'
      else match split sep s' with
           | [] => [String c EmptyString]
           | w :: ws => String c w :: ws
           end
  end.

(** [l[-k]] for [k >= 1]: the k-th element from the end, [IndexError]
    when the list is shorter. *)
Definition index_from_end {A : Type} (l : list A) (k : nat) : result A :=
  match nth_error (rev l) (Nat.pred k) with
  | Some x => Ok x
  | None => Raise IndexError
  end.

Fixpoint take (n : nat) (s : string) : string :=
  match n, s with
  | S n', String c s' => String c (take n' s')
  | _, _ => EmptyString
  end.

(** [s[:stop]]: a negative [stop] counts from the end, and both ends are
    clamped to the string. *)
Definition slice_to (s : string) (stop : Z) : string :=
  let n := Z.of_nat (String.length s) in
  let stop' := if stop <? 0 then Z.max 0 (stop + n) else Z.min stop n in
  take (Z.to_nat stop') s.

(** [s.lower()] on code points below 256. *)
Definition lower_char (c : ascii) : ascii :=
  let n := nat_of_ascii c in
  if ((65 <=? n) && (n <=? 90))%nat then ascii_of_nat (n + 32)
  else if ((192 <=? n) && (n <=? 222) && negb (n =? 215))%nat
       then ascii_of_nat (n + 32)
  else c.

Fixpoint lower (s : string) : string :=
  match s with
  | EmptyString => EmptyString
  | String c s' => String (lower_char c) (lower s')
  end.

(** [str(z)] for an [int]. *)
Definition str_int (z : Z) : string := NilZero.string_of_int (Z.to_int z).

(** The characters that [int] skips at both ends of its argument: the
    ASCII white space (code points 9 to 13 and 32) and the two other white
    space code points below 256 (133 and 160).  The separators 28 to 31
    are white space for [str.strip], but [int] rejects them. *)
Definition is_space (c : ascii) : bool :=
  let n := nat_of_ascii c in
  (((9 <=? n) && (n <=? 13)) || (n =? 32) || (n =? 133) || (n =? 160))%nat.

Fixpoint lstrip (s : string) : string :=
  match s with
  | EmptyString => EmptyString
  | String c s' => if is_space c then lstrip s' else s
  end.

Fixpoint rstrip (s : string) : string :=
  match s with
  | EmptyString => EmptyString
  | String c s' =>
      match rstrip s' with
      | EmptyString => if is_space c then EmptyString else String c EmptyString
      | r => String c r
      end
  end.

Definition digit_of (c : ascii) : option (Decimal.uint -> Decimal.uint) :=
  match c with
  | "0"%char => Some Decimal.D0
  | "1"%char => Some Decimal.D1
  | "2"%char => Some Decimal.D2
  | "3"%char => Some Decimal.D3
  | "4"%char => Some Decimal.D4
  | "5"%char => Some Decimal.D5
  | "6"%char => Some Decimal.D6
  | "7"%char => Some Decimal.D7
  | "8"%char => Some Decimal.D8
  | "9"%char => Some Decimal.D9
  | _ => None
  end.

(** The digits of an [int] literal: decimal digits, where a single
    underscore may stand between two digits. *)
Fixpoint digits_of (after_digit : bool) (s : string) : option Decimal.uint :=
  match s with
  | EmptyString => if after_digit then Some Decimal.Nil else None
  | String c s' =>
      if Ascii.eqb c "_" then
        (if after_digit then digits_of false s' else None)
      else match digit_of c with
           | Some d => option_map d (digits_of true s')
           | None => None
           end
  end.

(** [int(s)] for a [str]: surrounding white space, an optional sign,
    then the digits; [ValueError] otherwise. *)
Definition int (s : string) : result Z :=
  let t := rstrip (lstrip s) in
  let '(neg, body) :=
    match t with
    | String "-" r => (true, r)
    | String "+" r => (false, r)
    | _ => (false, t)
    end in
  match digits_of false body with
  | Some d => Ok (if neg : bool then - Z.of_uint d else Z.of_uint d)
  | None => Raise ValueError
  end.

(** [os.path.join(a, b)] on a POSIX system. *)
Definition path_join (a b : string) : string :=
  match b with
  | String "/" _ => b
  | _ =>
      match a with
      | EmptyString => b
      | _ =>
          match index_from_end (list_ascii_of_string a) 1 with
          | Ok "/"%char => a ++ b
          | _ => a ++ "/" ++ b
          end
      end
  end.

End PyStr.

(** ** Values of the configuration, registry keys *)

(** A value of the configuration dict returned by [json.load].  Sensor
    lists hold strings and horizon lists hold integers. *)
Inductive conf_value : Type :=
| CNull
| CBool (b : bool)
| CInt (z : Z)
| CFloat (q : Q)
| CStr (s : string)
| CStrs (l : list string)
| CInts (l : list Z).

(** A key of the registry dicts: a sensor or a horizon. *)
Inductive pykey : Type :=
| KStr (s : string)
| KInt (z : Z).

#[global] Instance pykey_eq_dec : EqDecision pykey.
Proof. solve_decision. Defined.

#[global] Instance pykey_countable : Countable pykey :=
  inj_countable'
    (fun k => match k with KStr s => inl s | KInt z => inr z end)
    (fun x => match x with inl s => KStr s | inr z => KInt z end)
    (fun k => match k with KStr _ => eq_refl | KInt _ => eq_refl end).

(** ["{}".format(k)] *)
Definition format_key (k : pykey) : string :=
  match k with
  | KStr s => s
  | KInt z => PyStr.str_int z
  end.

(** [for x in v]: the items a configuration value yields, [TypeError] for
    a value that is not iterable.  A [str] yields its characters. *)
Definition iter_keys (v : conf_value) : result (list pykey) :=
  match v with
  | CStrs l => Ok (map KStr l)
  | CInts l => Ok (map KInt l)
  | CStr s => Ok (map (fun c => KStr (String c EmptyString)) (list_ascii_of_string s))
  | CNull | CBool _ | CInt _ | CFloat _ => Raise TypeError
  end.

(** [v.lower()] *)
Definition conf_lower (v : conf_value) : result string :=
  match v with
  | CStr s => Ok (PyStr.lower s)
  | _ => Raise AttributeError
  end.

(** Dicts with [str] keys, in insertion order. *)
Fixpoint dict_get {A : Type} (k : string) (d : list (string * A)) : option A :=
  match d with
  | [] => None
  | (k', v) :: d' => if String.eqb k k' then Some v else dict_get k d'
  end.

Fixpoint dict_set {A : Type} (k : string) (v : A) (d : list (string * A))
  : list (string * A) :=
  match d with
  | [] => [(k, v)]
  | (k', v') :: d' =>
      if String.eqb k k' then (k, v) :: d' else (k', v') :: dict_set k v d'
  end.

(** [d[k]] on the configuration *)
Definition conf_item (conf : list (string * conf_value)) (k : string)
  : result conf_value :=
  match dict_get k conf with
  | Some v => Ok v
  | None => Raise KeyError
  end.

(** [v['k']] for a [str] key [k]. *)
Definition getitem_str (v : pyval) (k : string) : result pyval :=
  match v with
  | VDict d =>
      match dict_get k d with
      | Some x => Ok x
      | None => Raise KeyError
      end
  | _ => Raise TypeError
  end.

(** [v[0]] *)
Definition getitem_0 (v : pyval) : result pyval :=
  match v with
  | VList (x :: _) => Ok x
  | VList [] => Raise IndexError
  | VStr (String c _) => Ok (VStr (String c EmptyString))
  | VStr EmptyString => Raise IndexError
  | VDict _ => Raise KeyError
  | _ => Raise TypeError
  end.

(** ** File and topic names *)

(** What the program prints, line by line. *)
Inductive line : Type :=
| Text (s : string)
| TrainingLine (sensor horizon : pykey) (time_offset : string) (score : pyval)
| SavedModel (filename : string)
| LoadedModel (filename : string)
| Subscribed (topics : list string)
| Prediction (output_topic : string) (output : pyval)
| ProducerError (e : exn)
| ConsumerError (e : exn)
| Traceback (e : exn)
| PayloadOutput (args : list pyval).

(** The observable actions of the process, oldest first. *)
Inductive event : Type :=
| EPrint (l : line)
| EMakedirs (path : string)
| EFit (path : string)
| ESave (path : string)
| ELoad (path : string)
| ESend (topic : string) (value : pyval)
| EAwait (timeout : option Z)
| EKafkaConsumer
| ESubscribe (topics : list string)
| EKafkaProducer
| EPingWatchdog.

(** ["model_{}_{}{}".format(sensor, horizon, time_period)] *)
Definition model_label (sensor horizon : pykey) (time_period : string) : string :=
  "model_" ++ format_key sensor ++ "_" ++ format_key horizon ++ time_period.

(** ["features_{}_{}{}".format(sensor, horizon, time_period)] *)
Definition topic_name (sensor horizon : pykey) (time_period : string) : string :=
  "features_" ++ format_key sensor ++ "_" ++ format_key horizon ++ time_period.

(** Lines 226-227 of [main]: the sensor and the horizon of a topic name. *)
Definition resolve_key (topic time_offset : string) : result (string * Z) :=
  let? last := PyStr.index_from_end (PyStr.split "_" topic) 1 in
  let? horizon :=
    PyStr.int (PyStr.slice_to last (- Z.of_nat (String.length time_offset))) in
  let? sensor := PyStr.index_from_end (PyStr.split "_" topic) 2 in
  Ok (sensor, horizon).

(** ** The fragment of [eval] that is modelled

    [eval(msg.value)] compiles the payload as a Python expression and
    evaluates it in the scope of [main].  The expressions modelled are the
    literals, list and dict displays with [str] keys, names that are bound
    nowhere (JSON's [true], [false] and [null] among them), and calls of
    [print] and of [sys.exit], both in scope of [main].

    Expressions outside this fragment are not modelled: tuple and [bytes]
    literals, dict displays with other keys, and above all the expressions
    that reach the locals of [main] ([models.clear()], [models.pop('temp')],
    [producer.close()], ...).  A statement that holds of every [pyexpr]
    says nothing about those payloads. *)
#[warning="-register-all"]
Inductive pyexpr : Type :=
| ENone
| EBool (b : bool)
| EInt (z : Z)
| EFloat (q : Q)
| EStr (s : string)
| EList (items : list pyexpr)
| EDict (items : list (string * pyexpr))
| EUnbound (name : string)
| ECallPrint (args : list pyexpr)
| ECallSysExit (arg : pyexpr).

(** The payload of a message: bytes that the compiler rejects with a
    [SyntaxError] ([{"timestamp": ], say), or bytes that compile, with the
    expression they compile to.
    The other ways in which [eval] can refuse its argument before
    evaluating anything (a NUL byte, a payload that is [None]) are not
    modelled. *)
Inductive payload : Type :=
| Malformed
| Source (e : pyexpr).

Record message : Type := { topic : string; value : payload }.

(** The items of a display or the arguments of a call, left to right. *)
Fixpoint eval_list (ev : pyexpr -> list event * result pyval)
    (es : list pyexpr) : list event * result (list pyval) :=
  match es with
  | [] => ([], Ok [])
  | e1 :: es' =>
      match ev e1 with
      | (t1, Raise x) => (t1, Raise x)
      | (t1, Ok v1) =>
          match eval_list ev es' with
          | (t2, Raise x) => ((t1 ++ t2)%list, Raise x)
          | (t2, Ok vs) => ((t1 ++ t2)%list, Ok (v1 :: vs))
          end
      end
  end.

(** The items of a dict display; a later item replaces an earlier one
    with the same key. *)
Fixpoint eval_pairs (ev : pyexpr -> list event * result pyval)
    (ps : list (string * pyexpr)) (acc : list (string * pyval))
  : list event * result (list (string * pyval)) :=
  match ps with
  | [] => ([], Ok acc)
  | (k, e1) :: ps' =>
      match ev e1 with
      | (t1, Raise x) => (t1, Raise x)
      | (t1, Ok v1) =>
          match eval_pairs ev ps' (dict_set k v1 acc) with
          | (t2, r) => ((t1 ++ t2)%list, r)
          end
      end
  end.

(** Evaluation; the events are those the evaluation itself performs, also
    when it ends in an exception. *)
Fixpoint eval_expr (e : pyexpr) : list event * result pyval :=
  match e with
  | ENone => ([], Ok VNone)
  | EBool b => ([], Ok (VBool b))
  | EInt z => ([], Ok (VInt z))
  | EFloat q => ([], Ok (VFloat q))
  | EStr s => ([], Ok (VStr s))
  | EList items =>
      match eval_list eval_expr items with
      | (t, Ok vs) => (t, Ok (VList vs))
      | (t, Raise x) => (t, Raise x)
      end
  | EDict items =>
      match eval_pairs eval_expr items [] with
      | (t, Ok d) => (t, Ok (VDict d))
      | (t, Raise x) => (t, Raise x)
      end
  | EUnbound name => ([], Raise (NameError name))
  | ECallPrint args =>
      match eval_list eval_expr args with
      | (t, Ok vs) => ((t ++ [EPrint (PayloadOutput vs)])%list, Ok VNone)
      | (t, Raise x) => (t, Raise x)
      end
  | ECallSysExit arg =>
      match eval_expr arg with
      | (t, Ok v) => (t, Raise (SystemExit v))
      | (t, Raise x) => (t, Raise x)
      end
  end.

(** [eval(msg.value)] *)
Definition eval (p : payload) : list event * result pyval :=
  match p with
  | Malformed => ([], Raise SyntaxError)
  | Source e => eval_expr e
  end.

(** What a strict structured-data decoder accepts: data literals only. *)
Fixpoint is_data (e : pyexpr) : bool :=
  match e with
  | ENone | EBool _ | EInt _ | EFloat _ | EStr _ => true
  | EList items => forallb is_data items
  | EDict items => forallb (fun p => is_data (snd p)) items
  | EUnbound _ | ECallPrint _ | ECallSysExit _ => false
  end.

(** Induction on expressions, through the lists of their items. *)
Section ExprInduction.

Variable P : pyexpr -> Prop.
Hypothesis HNone : P ENone.
Hypothesis HBool : forall b, P (EBool b).
Hypothesis HInt : forall z, P (EInt z).
Hypothesis HFloat : forall q, P (EFloat q).
Hypothesis HStr : forall s, P (EStr s).
Hypothesis HList : forall items, Forall P items -> P (EList items).
Hypothesis HDict :
  forall items, Forall (fun p => P (snd p)) items -> P (EDict items).
Hypothesis HUnbound : forall name, P (EUnbound name).
Hypothesis HPrint : forall args, Forall P args -> P (ECallPrint args).
Hypothesis HExit : forall arg, P arg -> P (ECallSysExit arg).

Fixpoint pyexpr_nested_ind (e : pyexpr) : P e :=
  match e with
  | ENone => HNone
  | EBool b => HBool b
  | EInt z => HInt z
  | EFloat q => HFloat q
  | EStr s => HStr s
  | EList items =>
      HList items
        ((fix go (l : list pyexpr) : Forall P l :=
            match l with
            | [] => List.Forall_nil P
            | x :: l' => List.Forall_cons P x l' (pyexpr_nested_ind x) (go l')
            end) items)
  | EDict items =>
      HDict items
        ((fix go (l : list (string * pyexpr)) : Forall (fun p => P (snd p)) l :=
            match l with
            | [] => List.Forall_nil _
            | x :: l' =>
                List.Forall_cons _ x l' (pyexpr_nested_ind (snd x)) (go l')
            end) items)
  | EUnbound name => HUnbound name
  | ECallPrint args =>
      HPrint args
        ((fix go (l : list pyexpr) : Forall P l :=
            match l with
            | [] => List.Forall_nil P
            | x :: l' => List.Forall_cons P x l' (pyexpr_nested_ind x) (go l')
            end) args)
  | ECallSysExit arg => HExit arg (pyexpr_nested_ind arg)
  end.

End ExprInduction.

(** [conf.keys] and the operand of [in]: a dict or a bound method. *)
Inductive pyobj : Type :=
| ODict (d : list (string * conf_value))
| OBoundMethod (self : list (string * conf_value)) (name : string).

(** ** What lies outside [src/] *)

(** The class [PredictiveModel], the file system and the Kafka client.
    [World] is the state of everything outside the process.  A method that
    mutates its object returns the object after the call, also when the
    call raises.  [ping_watchdog] (lines 53-61) issues an HTTP request and
    re-arms a timer thread; it is kept opaque. *)
Record Externals : Type := {
  World : Type;
  Model : Type;
  Future : Type;
  PredictiveModel : pykey -> pykey -> list (string * conf_value) -> result Model;
  fit : Model -> string -> World -> Model * World * result pyval;
  save : Model -> string -> World -> Model * World * result unit;
  load : Model -> string -> World -> Model * World * result unit;
  predict : Model -> pyval -> pyval -> Model * result pyval;
  evaluate : Model -> pyval -> pyval -> Model * result pyval;
  predictability : Model -> pyval;
  isdir : string -> World -> bool;
  makedirs : string -> World -> World * result unit;
  KafkaConsumer : conf_value -> World -> World * result unit;
  subscribe : list string -> World -> World * result unit;
  KafkaProducer : conf_value -> World -> World * result unit;
  send : string -> pyval -> World -> World * result Future;
  future_get : Future -> option Z -> World -> World * result unit;
  ping_watchdog : pyobj -> list (string * conf_value) -> World
                  -> World * result unit
}.

(** The parsed command line. *)
Record arguments : Type := {
  arg_fit : bool;
  arg_save : bool;
  arg_load : bool;
  arg_watchdog : bool;
  arg_predict : bool
}.

(** The variables [main] sets while it reads the configuration. *)
Record locals : Type := {
  sensors : conf_value;
  horizons : conf_value;
  kwargs : list (string * conf_value);
  time_offset : string
}.

(** The default of the parameter [time_period] of [get_model_file_name]
    and [get_data_file_name]. *)
Definition default_time_period : string := "h".

(** The timeout of [future.get(timeout=10)], in seconds. *)
Definition ack_timeout : Z := 10.

(** Lines 133-144: one step of [for key in conf]. *)
Definition read_key (conf : list (string * conf_value)) (vars : locals)
    (key : string) : result locals :=
  if String.eqb "sensors" key then
    let? v := conf_item conf key in
    Ok {| sensors := v; horizons := horizons vars;
          kwargs := kwargs vars; time_offset := time_offset vars |}
  else if String.eqb "prediction_horizons" key then
    let? v := conf_item conf key in
    Ok {| sensors := sensors vars; horizons := v;
          kwargs := kwargs vars; time_offset := time_offset vars |}
  else
    let? v := conf_item conf key in
    let kw := dict_set key v (kwargs vars) in
    if String.eqb "time_offset" key then
      let? t := conf_item conf "time_offset" in
      let? t' := conf_lower t in
      Ok {| sensors := sensors vars; horizons := horizons vars;
            kwargs := kw; time_offset := t' |}
    else
      Ok {| sensors := sensors vars; horizons := horizons vars;
            kwargs := kw; time_offset := time_offset vars |}.

Fixpoint read_keys (conf : list (string * conf_value)) (keys : list string)
    (vars : locals) : result locals :=
  match keys with
  | [] => Ok vars
  | key :: keys' =>
      let? vars' := read_key conf vars key in
      read_keys conf keys' vars'
  end.

(** Lines 128-144 of [main]. *)
Definition read_conf (conf : list (string * conf_value)) : result locals :=
  let? time_offset0 :=
    match dict_get "time_offset" conf with
    | Some v => conf_lower v
    | None => Ok "h"
    end in
  read_keys conf (map fst conf)
    {| sensors := CNull; horizons := CNull; kwargs := [];
       time_offset := time_offset0 |}.

(** Lines 44-50, on the values [main] passes. *)
Fixpoint topics_loop (ss : list pykey) (horizons : conf_value)
    (time_period : string) (topics : list string) : result (list string) :=
  match ss with
  | [] => Ok topics
  | sensor :: ss' =>
      let? hs := iter_keys horizons in
      topics_loop ss' horizons time_period
        (topics ++ map (fun horizon => topic_name sensor horizon time_period) hs)%list
  end.

Definition get_input_data_topics (sensors horizons : conf_value)
    (time_period : string) : result (list string) :=
  let? ss := iter_keys sensors in
  topics_loop ss horizons time_period [].

(** The methods of a dict. *)
Definition dict_methods : list string :=
  ["clear"; "copy"; "fromkeys"; "get"; "items"; "keys"; "pop"; "popitem";
   "setdefault"; "update"; "values"].

(** [d.name] for a dict [d] and a name without double underscores: a
    method, bound to [d], or [AttributeError]. *)
Definition dict_getattr (d : list (string * conf_value)) (name : string)
  : result pyobj :=
  if existsb (String.eqb name) dict_methods then Ok (OBoundMethod d name)
  else Raise AttributeError.

(** [key in o] *)
Definition py_in (key : string) (o : pyobj) : result bool :=
  match o with
  | ODict d => Ok (match dict_get key d with Some _ => true | None => false end)
  | OBoundMethod _ _ => Raise TypeError
  end.

(** Line 152: the line printed for each model constructed. *)
Definition init_line (vars : locals) (sensor horizon : pykey) : line :=
  Text ("Initializing " ++ model_label sensor horizon (time_offset vars)).

(** Line 126. *)
Definition init_header : line := Text "=== Init phase ===".

(** The record [main] builds at lines 234-238. *)
Definition output_fields (sensor : string) (horizon : Z)
    (timestamp value0 predictability0 : pyval) : list (string * pyval) :=
  [("stampm", timestamp); ("value", value0);
   ("sensor_id", VStr sensor); ("horizon", VInt horizon);
   ("predictability", predictability0)].

Definition output_record (sensor : string) (horizon : Z)
    (timestamp value0 predictability0 : pyval) : pyval :=
  VDict (output_fields sensor horizon timestamp value0 predictability0).

(** ** The process state and its monad *)

Section Program.

Context {X : Externals}.

(** [models] is the two-level dict of [main]; [trace] lists the actions
    performed so far, oldest first. *)
Record state : Type := {
  models : gmap pykey (gmap pykey (Model X));
  world : World X;
  trace : list event
}.

(** A statement: it changes the state and returns or raises.  The state
    survives an exception. *)
Definition M (A : Type) : Type := state -> state * result A.

Definition ret {A : Type} (a : A) : M A := fun st => (st, Ok a).

Definition lift {A : Type} (r : result A) : M A := fun st => (st, r).

Definition bindM {A B : Type} (c : M A) (k : A -> M B) : M B :=
  fun st =>
    match c st with
    | (st', Ok a) => k a st'
    | (st', Raise e) => (st', Raise e)
    end.

Notation "'let!' x ':=' c 'in' k" := (bindM c (fun x => k))
  (at level 10, x pattern, c at level 100, k at level 200).

(** [try: body except Exception as e: handler(e)] *)
Definition try_except {A : Type} (body : M A) (handler : exn -> M A) : M A :=
  fun st =>
    match body st with
    | (st', Raise e) => if is_Exception e then handler e st' else (st', Raise e)
    | (st', Ok a) => (st', Ok a)
    end.

Fixpoint for_each {A : Type} (l : list A) (body : A -> M unit) : M unit :=
  match l with
  | [] => ret tt
  | x :: l' => let! _ := body x in for_each l' body
  end.

(** [for x in v: body] *)
Definition for_in (v : conf_value) (body : pykey -> M unit) : M unit :=
  let! l := lift (iter_keys v) in
  for_each l body.

(** The state once [ev] has happened. *)
Definition record (ev : event) (st : state) : state :=
  {| models := models st; world := world st;
     trace := (trace st ++ [ev])%list |}.

Definition emit (ev : event) : M unit := fun st => (record ev st, Ok tt).

Definition print (l : line) : M unit := emit (EPrint l).

(** A call into the outside world. *)
Definition external {A : Type} (ev : event)
    (f : World X -> World X * result A) : M A :=
  fun st =>
    let '(w, r) := f (world st) in
    ({| models := models st; world := w;
        trace := (trace st ++ [ev])%list |}, r).

(** [models[sensor][horizon]] *)
Definition registry_get (ms : gmap pykey (gmap pykey (Model X)))
    (sensor horizon : pykey) : result (Model X) :=
  match ms !! sensor with
  | None => Raise KeyError
  | Some by_horizon =>
      match by_horizon !! horizon with
      | None => Raise KeyError
      | Some m => Ok m
      end
  end.

Definition get_model (sensor horizon : pykey) : M (Model X) :=
  fun st => (st, registry_get (models st) sensor horizon).

(** The object at [models[sensor][horizon]] after a method mutated it. *)
Definition registry_update (ms : gmap pykey (gmap pykey (Model X)))
    (sensor horizon : pykey) (m : Model X) : gmap pykey (gmap pykey (Model X)) :=
  match ms !! sensor with
  | None => ms
  | Some by_horizon => <[sensor := <[horizon := m]> by_horizon]> ms
  end.

(** [models[sensor] = {}] *)
Definition new_sensor (sensor : pykey) : M unit :=
  fun st =>
    ({| models := <[sensor := ∅]> (models st); world := world st;
        trace := trace st |}, Ok tt).

(** [models[sensor][horizon] = m] *)
Definition set_model (sensor horizon : pykey) (m : Model X) : M unit :=
  fun st =>
    match models st !! sensor with
    | None => (st, Raise KeyError)
    | Some by_horizon =>
        ({| models := <[sensor := <[horizon := m]> by_horizon]> (models st);
            world := world st; trace := trace st |}, Ok tt)
    end.

(** [models[sensor][horizon].method(...)] for a method that works on the
    world; the mutated object stays in the registry. *)
Definition call_method {A : Type} (sensor horizon : pykey) (ev : event)
    (method : Model X -> World X -> Model X * World X * result A) : M A :=
  fun st =>
    match registry_get (models st) sensor horizon with
    | Raise e => (st, Raise e)
    | Ok m =>
        let '(m', w, r) := method m (world st) in
        ({| models := registry_update (models st) sensor horizon m';
            world := w; trace := (trace st ++ [ev])%list |}, r)
    end.

(** The same for a method that only works on its object. *)
Definition call_pure {A : Type} (sensor horizon : pykey)
    (method : Model X -> Model X * result A) : M A :=
  fun st =>
    match registry_get (models st) sensor horizon with
    | Raise e => (st, Raise e)
    | Ok m =>
        let '(m', r) := method m in
        ({| models := registry_update (models st) sensor horizon m';
            world := world st; trace := trace st |}, r)
    end.

(** ** The helpers of [main.py] *)

(** Lines 23-25 and 34-36. *)
Definition ensure_dir (subdir : string) : M unit :=
  fun st =>
    if isdir X subdir (world st) then (st, Ok tt)
    else external (EMakedirs subdir) (makedirs X subdir) st.

Definition get_model_file_name (sensor horizon : pykey) (time_period : string)
  : M string :=
  let subdir := "models" in
  let! _ := ensure_dir subdir in
  let filename := model_label sensor horizon time_period in
  let filepath := PyStr.path_join subdir filename in
  ret filepath.

Definition get_data_file_name (sensor horizon : pykey) (time_period : string)
  : M string :=
  let subdir := "../../data/fused" in
  let! _ := ensure_dir subdir in
  let filename :=
    format_key sensor ++ "_" ++ format_key horizon ++ time_period ++ ".json" in
  let filepath := PyStr.path_join subdir filename in
  ret filepath.

(** ** The phases of [main] *)

(** Lines 149-152: the body of the inner loop. *)
Definition init_one (vars : locals) (sensor horizon : pykey) : M unit :=
  let! m := lift (PredictiveModel X sensor horizon (kwargs vars)) in
  let! _ := set_model sensor horizon m in
  print (init_line vars sensor horizon).

(** Lines 147-152: the body of the outer loop. *)
Definition init_sensor (vars : locals) (sensor : pykey) : M unit :=
  let! _ := new_sensor sensor in
  for_in (horizons vars) (init_one vars sensor).

(** Lines 146-152. *)
Definition init_models (vars : locals) : M unit :=
  for_in (sensors vars) (init_sensor vars).

(** Lines 160-171. *)
Definition fit_one (vars : locals) (sensor horizon : pykey) : M unit :=
  let! data := get_data_file_name sensor horizon default_time_period in
  try_except
    (let! score :=
       call_method sensor horizon (EFit data)
         (fun model => fit X model data) in
     print (TrainingLine sensor horizon (time_offset vars) score))
    (fun e => print (Traceback e)).

(** Lines 155-171. *)
Definition fit_phase (vars : locals) : M unit :=
  let! _ := print (Text "=== Learning phase ===") in
  for_in (sensors vars) (fun sensor =>
    for_in (horizons vars) (fit_one vars sensor)).

(** Lines 179-182. *)
Definition save_one (sensor horizon : pykey) : M unit :=
  let! _ := get_model sensor horizon in
  let! filename := get_model_file_name sensor horizon default_time_period in
  let! _ :=
    call_method sensor horizon (ESave filename)
      (fun model => save X model filename) in
  print (SavedModel filename).

(** Lines 174-182. *)
Definition save_phase (vars : locals) : M unit :=
  let! _ := print (Text "=== Saving phase ===") in
  for_in (sensors vars) (fun sensor =>
    for_in (horizons vars) (save_one sensor)).

(** Lines 190-193. *)
Definition load_one (sensor horizon : pykey) : M unit :=
  let! _ := get_model sensor horizon in
  let! filename := get_model_file_name sensor horizon default_time_period in
  let! _ :=
    call_method sensor horizon (ELoad filename)
      (fun model => load X model filename) in
  print (LoadedModel filename).

(** Lines 185-193. *)
Definition load_phase (vars : locals) : M unit :=
  let! _ := print (Text "=== Loading phase ===") in
  for_in (sensors vars) (fun sensor =>
    for_in (horizons vars) (load_one sensor)).

(** Lines 196-200: the guard evaluates [conf.keys], then applies [in] to
    it. *)
Definition watchdog_phase (conf : list (string * conf_value)) : M unit :=
  let! keys := lift (dict_getattr conf "keys") in
  let! present := lift (py_in "watchdog_path" keys) in
  if present : bool then
    let! _ := print (Text "=== Watchdog started ===") in
    let! path := lift (dict_getattr conf "watchdog_path") in
    external EPingWatchdog (ping_watchdog X path conf)
  else
    print (Text "Watchdog path missing").

(** Lines 218-221: the payload and its fields. *)
Definition decode_record (msg : message) : M (pyval * pyval * pyval) :=
  let! rec :=
    (fun st =>
       let '(t, r) := eval (value msg) in
       ({| models := models st; world := world st;
           trace := (trace st ++ t)%list |}, r)) in
  let! timestamp := lift (getitem_str rec "timestamp") in
  let! ftr_vector := lift (getitem_str rec "ftr_vector") in
  let! measurement := lift (getitem_0 ftr_vector) in
  ret (timestamp, ftr_vector, measurement).

(** Lines 230-252: prediction, evaluation and emission for one record. *)
Definition score_and_emit (sensor : string) (horizon : Z)
    (timestamp ftr_vector measurement : pyval) : M unit :=
  let! _ := get_model (KStr sensor) (KInt horizon) in
  let! predictions :=
    call_pure (KStr sensor) (KInt horizon)
      (fun model => predict X model (VList [ftr_vector]) timestamp) in
  let! value0 := lift (getitem_0 predictions) in
  let! model := get_model (KStr sensor) (KInt horizon) in
  let output :=
    output_record sensor horizon timestamp value0 (predictability X model) in
  let! output :=
    call_pure (KStr sensor) (KInt horizon)
      (fun model => evaluate X model output measurement) in
  let output_topic := "predictions_" ++ sensor in
  let! future :=
    external (ESend output_topic output) (send X output_topic output) in
  let! _ := print (Prediction output_topic output) in
  try_except
    (external (EAwait (Some ack_timeout))
       (future_get X future (Some ack_timeout)))
    (fun e => print (ProducerError e)).

(** Lines 218-252: the body of the [try] of the loop. *)
Definition handle_record (time_offset : string) (msg : message) : M unit :=
  let! (timestamp, ftr_vector, measurement) := decode_record msg in
  let! (sensor, horizon) := lift (resolve_key (topic msg) time_offset) in
  score_and_emit sensor horizon timestamp ftr_vector measurement.

(** The handling of [msg] fails with [e], leaving the state [st1], in
    one of its first three steps: payload decoding, key resolution,
    registry lookup. *)
Definition early_failure (time_offset : string) (msg : message)
    (st st1 : state) (e : exn) : Prop :=
  decode_record msg st = (st1, Raise e)
  \/ (exists fields,
        decode_record msg st = (st1, Ok fields)
        /\ resolve_key (topic msg) time_offset = Raise e)
  \/ (exists fields sensor horizon,
        decode_record msg st = (st1, Ok fields)
        /\ resolve_key (topic msg) time_offset = Ok (sensor, horizon)
        /\ registry_get (models st1) (KStr sensor) (KInt horizon) = Raise e).

(** Lines 217-255: one turn of the loop.  The handler prints
    ['Consumer error: ' + str(e)]; [str(e)] is taken to return, as it does
    for the built-in exceptions that lines 218-230 raise themselves.  An
    exception of the model class whose [__str__] raises is not modelled. *)
Definition consume (time_offset : string) (msg : message) : M unit :=
  try_except (handle_record time_offset msg)
             (fun e => print (ConsumerError e)).

(** Lines 216-255: [msgs] is what the consumer delivers.  The iteration
    step [for msg in consumer] is outside the [try] of line 217; a failure
    of the consumer in that step (a lost connection, say) is not modelled:
    the loop below only ends when the records do or when the handling of
    one record lets an exception through. *)
Definition predict_loop (time_offset : string) (msgs : list message) : M unit :=
  for_each msgs (consume time_offset).

(** Lines 203-255. *)
Definition predict_phase (conf : list (string * conf_value)) (vars : locals)
    (msgs : list message) : M unit :=
  let! _ := print (Text "=== Predictions phase ===") in
  let! topics :=
    lift (get_input_data_topics (sensors vars) (horizons vars)
            (time_offset vars)) in
  let! servers := lift (conf_item conf "bootstrap_servers") in
  let! _ := external EKafkaConsumer (KafkaConsumer X servers) in
  let! _ := external (ESubscribe topics) (subscribe X topics) in
  let! _ := print (Subscribed topics) in
  let! servers := lift (conf_item conf "bootstrap_servers") in
  let! _ := external EKafkaProducer (KafkaProducer X servers) in
  predict_loop (time_offset vars) msgs.

Definition when (b : bool) (c : M unit) : M unit := if b then c else ret tt.

(** Line 128: [models = dict()]. *)
Definition new_registry : M unit :=
  fun st =>
    ({| models := ∅; world := world st; trace := trace st |}, Ok tt).

(** Lines 126-152: the init phase. *)
Definition initialize (conf : list (string * conf_value)) : M locals :=
  let! _ := print init_header in
  let! _ := new_registry in
  let! vars := lift (read_conf conf) in
  let! _ := init_models vars in
  ret vars.

(** Lines 125-255 of [main], after the command line and the configuration
    file have been read. *)
Definition main (args : arguments) (conf : list (string * conf_value))
    (msgs : list message) : M unit :=
  let! vars := initialize conf in
  let! _ := when (arg_fit args) (fit_phase vars) in
  let! _ := when (arg_save args) (save_phase vars) in
  let! _ := when (arg_load args) (load_phase vars) in
  let! _ := when (arg_watchdog args) (watchdog_phase conf) in
  when (arg_predict args) (predict_phase conf vars msgs).

End Program.

Arguments state X : clear implicits.
Arguments M X A : clear implicits.
Arguments record {X} ev st.

(** ** A small instance of the outside world

    The world is the list of paths that exist.  A model counts its
    evaluations; it predicts 21.5 whatever the features; [evaluate] appends
    an [error] field; [load] needs the file, [save] creates it.  The flags
    say whether the broker accepts a message and acknowledges it. *)
Definition has_path (p : string) (w : list string) : bool :=
  existsb (String.eqb p) w.

Definition toy (send_ok ack_ok : bool) : Externals := {|
  World := list string;
  Model := Z;
  Future := unit;
  PredictiveModel := fun _ _ _ => Ok 0;
  fit := fun m data w =>
    if has_path data w then (m, w, Ok (VInt 1))
    else (m, w, Raise (OtherException "DataError"));
  save := fun m path w => (m, path :: w, Ok tt);
  load := fun m path w =>
    if has_path path w then (m, w, Ok tt)
    else (m, w, Raise (OtherException "PersistenceError"));
  predict := fun m _ _ => (m, Ok (VList [VFloat (43 # 2)]));
  evaluate := fun m output measurement =>
    match output with
    | VDict d => (m + 1, Ok (VDict (d ++ [("error", VInt 0)])%list))
    | _ => (m, Raise TypeError)
    end;
  predictability := fun m => VInt m;
  isdir := has_path;
  makedirs := fun p w => (p :: w, Ok tt);
  KafkaConsumer := fun _ w => (w, Ok tt);
  subscribe := fun _ w => (w, Ok tt);
  KafkaProducer := fun _ w => (w, Ok tt);
  send := fun _ _ w =>
    (w, if send_ok then Ok tt else Raise (OtherException "KafkaTimeoutError"));
  future_get := fun _ _ w =>
    (w, if ack_ok then Ok tt else Raise (OtherException "KafkaTimeoutError"));
  ping_watchdog := fun _ _ w => (w, Ok tt)
|}.

(** The same world on a file system that cannot be written: [save]
    raises. *)
Definition toy_readonly : Externals := {|
  World := list string;
  Model := Z;
  Future := unit;
  PredictiveModel := PredictiveModel (toy true true);
  fit := fit (toy true true);
  save := fun m path w => (m, w, Raise (OtherException "PersistenceError"));
  load := load (toy true true);
  predict := predict (toy true true);
  evaluate := evaluate (toy true true);
  predictability := predictability (toy true true);
  isdir := has_path;
  makedirs := fun p w => (p :: w, Ok tt);
  KafkaConsumer := fun _ w => (w, Ok tt);
  subscribe := fun _ w => (w, Ok tt);
  KafkaProducer := fun _ w => (w, Ok tt);
  send := fun _ _ w => (w, Ok tt);
  future_get := fun _ _ w => (w, Ok tt);
  ping_watchdog := fun _ _ w => (w, Ok tt)
|}.

Definition toy_start (X : Externals) (w : World X) : state X :=
  {| models := ∅; world := w; trace := [] |}.

(** A configuration with one sensor and one horizon, and the variables
    [main] reads from it. *)
Definition sample_conf : list (string * conf_value) :=
  [("sensors", CStrs ["temp"]); ("prediction_horizons", CInts [24]);
   ("bootstrap_servers", CStr "localhost:9092")].

Definition sample_vars : locals :=
  {| sensors := CStrs ["temp"]; horizons := CInts [24];
     kwargs := [("bootstrap_servers", CStr "localhost:9092")];
     time_offset := "h" |}.

(** Two sensors, one horizon. *)
Definition two_sensor_vars : locals :=
  {| sensors := CStrs ["a"; "b"]; horizons := CInts [1]; kwargs := [];
     time_offset := "h" |}.

(** The toy process once the models of [vars] are initialised, in a world
    with the paths [w]. *)
Definition toy_ready (vars : locals) (w : list string) : state (toy true true) :=
  fst (init_models vars (toy_start (toy true true) w)).

(** Four records on the topic of [sample_conf]: a well-formed one, one
    whose payload does not parse, and two whose payloads are the
    expressions [print('pwned')] and [sys.exit(1)]. *)
Definition good_record : message :=
  {| topic := "features_temp_24h";
     value := Source (EDict [("timestamp", EInt 1700000000);
                             ("ftr_vector",
                              EList [EFloat (20 # 1); EFloat (3 # 1)])]) |}.

Definition bad_record : message :=
  {| topic := "features_temp_24h"; value := Malformed |}.

Definition print_record : message :=
  {| topic := "features_temp_24h";
     value := Source (ECallPrint [EStr "pwned"]) |}.

Definition exit_record : message :=
  {| topic := "features_temp_24h";
     value := Source (ECallSysExit (EInt 1)) |}.

(** The payload is unparsable or a data literal. *)
Definition plain_payload (p : payload) : Prop :=
  match p with
  | Malformed => True
  | Source e => is_data e = true
  end.

(** ** Predicates used in the statements *)


(** Between two states of the registry nothing changed but, at most, the
    model stored under [(s, h)]; no entry appeared or disappeared. *)
Definition only_changes {X : Externals} (s h : pykey)
    (ms ms' : gmap pykey (gmap pykey (Model X))) : Prop :=
  (forall s' h', (s', h') <> (s, h) ->
     registry_get ms' s' h' = registry_get ms s' h')
  /\ (registry_get ms' s h = Raise KeyError
      <-> registry_get ms s h = Raise KeyError).

(** A statement that changes, at most, the model stored under [(s, h)]. *)
Definition touches_only {X : Externals} {A : Type} (s h : pykey)
    (c : M X A) : Prop :=
  forall st st' r, c st = (st', r) -> only_changes s h (models st) (models st').

(** The path starts at the root. *)
Definition is_absolute (p : string) : bool :=
  match p with
  | String "/" _ => true
  | _ => false
  end.

(** The two keys of the configuration that [main] keeps for itself. *)
Definition is_registry_key (key : string) : bool :=
  String.eqb "sensors" key || String.eqb "prediction_horizons" key.


(** [c in s] *)
Fixpoint contains_char (c : ascii) (s : string) : bool :=
  match s with
  | EmptyString => false
  | String c' s' => Ascii.eqb c' c || contains_char c s'
  end.

Fixpoint all_chars (P : ascii -> bool) (s : string) : bool :=
  match s with
  | EmptyString => true
  | String c s' => P c && all_chars P s'
  end.

Definition is_digit (c : ascii) : bool :=
  match PyStr.digit_of c with
  | Some _ => true
  | None => false
  end.

(** * Properties *)

(** ** Strings *)

Section StringFacts.

Local Open Scope nat_scope.

Lemma split_no_sep sep a :
  contains_char sep a = false -> PyStr.split sep a = [a].
Proof.
  induction a as [|c a IH]; simpl; [reflexivity|].
  intros H. apply orb_false_iff in H as [Hc Ha].
  rewrite Hc, (IH Ha). reflexivity.
Qed.

Lemma split_app sep a b :
  contains_char sep a = false ->
  PyStr.split sep (a ++ String sep b) = a :: PyStr.split sep b.
Proof.
  induction a as [|c a IH]; simpl; intros H.
  - rewrite Ascii.eqb_refl. reflexivity.
  - apply orb_false_iff in H as [Hc Ha].
    rewrite Hc, (IH Ha). reflexivity.
Qed.

Lemma contains_char_app c a b :
  contains_char c (a ++ b) = contains_char c a || contains_char c b.
Proof.
  induction a as [|c' a IH]; simpl; [reflexivity|].
  rewrite IH. apply orb_assoc.
Qed.

Lemma take_app a b : PyStr.take (String.length a) (a ++ b) = a.
Proof.
  induction a as [|c a IH]; simpl.
  - destruct b; reflexivity.
  - rewrite IH. reflexivity.
Qed.

Lemma length_app a b :
  String.length (a ++ b) = String.length a + String.length b.
Proof. induction a as [|c a IH]; simpl; [reflexivity|]. rewrite IH. reflexivity. Qed.

(** Cutting a non-empty suffix off by its length gives the prefix back. *)
Lemma slice_to_suffix a u :
  u <> EmptyString ->
  PyStr.slice_to (a ++ u) (- Z.of_nat (String.length u)) = a.
Proof.
  intros Hu. unfold PyStr.slice_to.
  assert (0 < String.length u) by (destruct u; [congruence | simpl; lia]).
  rewrite length_app.
  destruct (Z.ltb_spec (- Z.of_nat (String.length u)) 0) as [_|Hge]; [|lia].
  replace (Z.to_nat _) with (String.length a) by lia.
  apply take_app.
Qed.

Lemma all_chars_impl (P Q : ascii -> bool) s :
  (forall c, P c = true -> Q c = true) ->
  all_chars P s = true -> all_chars Q s = true.
Proof.
  intros HPQ. induction s as [|c s IH]; simpl; [reflexivity|].
  intros H. apply andb_true_iff in H as [Hc Hs].
  rewrite (HPQ _ Hc), (IH Hs). reflexivity.
Qed.

Lemma digit_not_space c : is_digit c = true -> negb (PyStr.is_space c) = true.
Proof.
  destruct c as [[] [] [] [] [] [] [] []]; vm_compute; congruence.
Qed.

Lemma digit_not_underscore c : is_digit c = true -> Ascii.eqb c "_" = false.
Proof.
  destruct c as [[] [] [] [] [] [] [] []]; vm_compute; congruence.
Qed.

Lemma lstrip_no_space s :
  all_chars (fun c => negb (PyStr.is_space c)) s = true -> PyStr.lstrip s = s.
Proof.
  destruct s as [|c s]; simpl; [reflexivity|].
  intros H. apply andb_true_iff in H as [Hc _].
  apply negb_true_iff in Hc. rewrite Hc. reflexivity.
Qed.

Lemma rstrip_no_space s :
  all_chars (fun c => negb (PyStr.is_space c)) s = true -> PyStr.rstrip s = s.
Proof.
  induction s as [|c s IH]; simpl; [reflexivity|].
  intros H. apply andb_true_iff in H as [Hc Hs].
  rewrite (IH Hs). apply negb_true_iff in Hc. rewrite Hc.
  destruct s; reflexivity.
Qed.

(** The decimal digits [str] writes are read back by [int]. *)
Lemma string_of_uint_digits d :
  all_chars is_digit (NilEmpty.string_of_uint d) = true.
Proof. induction d; simpl; auto. Qed.

Lemma digits_of_string_of_uint d :
  PyStr.digits_of true (NilEmpty.string_of_uint d) = Some d.
Proof. induction d; simpl; try rewrite IHd; reflexivity. Qed.

Lemma digits_of_start d :
  d <> Decimal.Nil ->
  PyStr.digits_of false (NilEmpty.string_of_uint d) = Some d.
Proof.
  destruct d; intros Hd; [congruence | ..]; simpl;
    rewrite digits_of_string_of_uint; reflexivity.
Qed.

Lemma str_int_pos p :
  PyStr.str_int (Z.pos p) = NilEmpty.string_of_uint (Pos.to_uint p).
Proof.
  unfold PyStr.str_int. simpl.
  pose proof (DecimalPos.Unsigned.to_uint_nonnil p) as Hn.
  unfold NilZero.string_of_uint.
  destruct (Pos.to_uint p); [congruence | reflexivity ..].
Qed.

Lemma int_str_int h : (0 < h)%Z -> PyStr.int (PyStr.str_int h) = Ok h.
Proof.
  intros Hh. destruct h as [|p|p]; try lia.
  rewrite str_int_pos.
  pose proof (string_of_uint_digits (Pos.to_uint p)) as Hd.
  pose proof (DecimalPos.Unsigned.to_uint_nonnil p) as Hn.
  unfold PyStr.int.
  rewrite lstrip_no_space, rstrip_no_space
    by (eapply all_chars_impl; [apply digit_not_space | exact Hd]).
  assert (Hsign :
    match NilEmpty.string_of_uint (Pos.to_uint p) with
    | String "-" r => (true, r)
    | String "+" r => (false, r)
    | _ => (false, NilEmpty.string_of_uint (Pos.to_uint p))
    end = (false, NilEmpty.string_of_uint (Pos.to_uint p))).
  { destruct (Pos.to_uint p); reflexivity. }
  rewrite Hsign, digits_of_start by exact Hn.
  f_equal. change (Z.of_uint (Pos.to_uint p)) with (Z.of_int (Z.to_int (Z.pos p))).
  apply DecimalZ.of_to.
Qed.

Lemma str_int_no_underscore h :
  (0 < h)%Z -> contains_char "_" (PyStr.str_int h) = false.
Proof.
  intros Hh. destruct h as [|p|p]; try lia.
  rewrite str_int_pos.
  pose proof (string_of_uint_digits (Pos.to_uint p)) as Hd.
  induction (NilEmpty.string_of_uint (Pos.to_uint p)) as [|c s IH];
    simpl in *; [reflexivity|].
  apply andb_true_iff in Hd as [Hc Hs].
  rewrite (digit_not_underscore _ Hc), (IH Hs). reflexivity.
Qed.

End StringFacts.

(** ** Topic names and their resolution *)

Lemma topic_name_str s h u :
  topic_name (KStr s) (KInt h) u
  = "features" ++ String "_" (s ++ String "_" (PyStr.str_int h ++ u)).
Proof. reflexivity. Qed.

(** C2, as amended: for a sensor identifier without underscore, a
    positive horizon and a non-empty unit code without underscore,
    resolving the topic name [features_<s>_<h><u>] with unit [u] gives
    back the pair [(s, h)]. *)
Theorem C2_resolve_topic_roundtrip (s : string) (h : Z) (u : string) :
  contains_char "_" s = false ->
  u <> EmptyString ->
  contains_char "_" u = false ->
  0 < h ->
  resolve_key (topic_name (KStr s) (KInt h) u) u = Ok (s, h).
Proof.
  intros Hs Hu Hu_ Hh.
  unfold resolve_key. rewrite topic_name_str.
  rewrite (split_app "_" "features") by reflexivity.
  rewrite (split_app "_" s) by exact Hs.
  rewrite split_no_sep
    by (rewrite contains_char_app, str_int_no_underscore, Hu_ by exact Hh;
        reflexivity).
  cbn [PyStr.index_from_end rev app nth_error Nat.pred bind].
  rewrite slice_to_suffix by exact Hu.
  rewrite int_str_int by exact Hh.
  reflexivity.
Qed.

Lemma C2_resolve_topic_roundtrip_witness :
  resolve_key (topic_name (KStr "temp") (KInt 24) "h") "h" = Ok ("temp", 24).
Proof.
  apply (C2_resolve_topic_roundtrip "temp" 24 "h");
    [reflexivity | discriminate | reflexivity | lia].
Defined.

(** C2 fails as stated: a sensor identifier with an underscore loses its
    first part, and an empty unit code or one with an underscore makes the
    horizon unreadable. *)
Lemma C2_roundtrip_counterexample :
  resolve_key (topic_name (KStr "room_temp") (KInt 24) "h") "h"
    = Ok ("temp", 24)
  /\ resolve_key (topic_name (KStr "room_temp") (KInt 24) "h") "h"
    <> Ok ("room_temp", 24)
  /\ resolve_key (topic_name (KStr "temp") (KInt 24) "") ""
    = Raise ValueError
  /\ resolve_key (topic_name (KStr "temp") (KInt 24) "_h") "_h"
    = Raise ValueError.
Proof. repeat split; try reflexivity. discriminate. Qed.

(** ** The registry after initialisation *)

Section Registry.

Context {X : Externals}.

Lemma for_each_cons {A : Type} (x : A) (l : list A) (body : A -> M X unit) st :
  for_each (x :: l) body st
  = match body x st with
    | (st', Ok _) => for_each l body st'
    | (st', Raise e) => (st', Raise e)
    end.
Proof. reflexivity. Qed.

Lemma for_each_app {A : Type} (l1 l2 : list A) (body : A -> M X unit) st :
  for_each (l1 ++ l2) body st
  = match for_each l1 body st with
    | (st', Ok _) => for_each l2 body st'
    | (st', Raise e) => (st', Raise e)
    end.
Proof.
  revert st. induction l1 as [|x l1 IH]; intros st; [reflexivity|].
  simpl app. rewrite !for_each_cons.
  destruct (body x st) as [st1 [[]|e]]; [apply IH | reflexivity].
Qed.

Lemma init_one_ok vars s h st st' :
  init_one vars s h st = (st', Ok tt) ->
  exists m by_h,
    PredictiveModel X s h (kwargs vars) = Ok m
    /\ models st !! s = Some by_h
    /\ models st' = <[s := <[h := m]> by_h]> (models st)
    /\ world st' = world st
    /\ trace st' = (trace st ++ [EPrint (init_line vars s h)])%list.
Proof.
  unfold init_one, bindM, lift, set_model, print, emit.
  destruct (PredictiveModel X s h (kwargs vars)) as [m|e]; [|discriminate].
  destruct (models st !! s) as [by_h|] eqn:Hs; [|discriminate].
  simpl. intros [= <-]. exists m, by_h. simpl. auto.
Qed.

Lemma init_inner_ok vars s hs : forall st st' by_h,
  for_each hs (init_one vars s) st = (st', Ok tt) ->
  models st !! s = Some by_h ->
  exists by_h',
    models st' !! s = Some by_h'
    /\ (forall s', s' <> s -> models st' !! s' = models st !! s')
    /\ (forall h, h ∈ hs ->
          exists m, PredictiveModel X s h (kwargs vars) = Ok m
                    /\ by_h' !! h = Some m)
    /\ (forall h, h ∉ hs -> by_h' !! h = by_h !! h).
Proof.
  induction hs as [|h hs IH]; intros st st' by_h Hrun Hs.
  - injection Hrun as <-. exists by_h. repeat split; auto.
    intros h Hin. inversion Hin.
  - rewrite for_each_cons in Hrun.
    destruct (init_one vars s h st) as [st1 [[]|e]] eqn:Hone; [|discriminate].
    apply init_one_ok in Hone as (m & by_h0 & Hm & Hs0 & Hmodels & _ & _).
    rewrite Hs in Hs0. injection Hs0 as <-.
    destruct (IH st1 st' (<[h := m]> by_h) Hrun) as (by_h' & H1 & H2 & H3 & H4).
    { rewrite Hmodels. apply lookup_insert_eq. }
    exists by_h'. split; [exact H1|]. split; [|split].
    + intros s' Hne. rewrite (H2 s' Hne), Hmodels.
      apply lookup_insert_ne. congruence.
    + intros h' Hin. destruct (decide (h' ∈ hs)) as [Hin'|Hnin].
      * apply H3, Hin'.
      * apply elem_of_cons in Hin as [->|Hin]; [|contradiction].
        exists m. split; [exact Hm|].
        rewrite (H4 h Hnin). apply lookup_insert_eq.
    + intros h' Hnin. apply not_elem_of_cons in Hnin as [Hne Hnin].
      rewrite (H4 h' Hnin). apply lookup_insert_ne. congruence.
Qed.

Lemma for_in_ok v l (body : pykey -> M X unit) st :
  iter_keys v = Ok l -> for_in v body st = for_each l body st.
Proof. intros H. unfold for_in, bindM, lift. rewrite H. reflexivity. Qed.


Lemma init_sensor_ok vars hs s st st' :
  iter_keys (horizons vars) = Ok hs ->
  init_sensor vars s st = (st', Ok tt) ->
  exists by_h,
    models st' !! s = Some by_h
    /\ (forall s', s' <> s -> models st' !! s' = models st !! s')
    /\ (forall h, h ∈ hs ->
          exists m, PredictiveModel X s h (kwargs vars) = Ok m
                    /\ by_h !! h = Some m)
    /\ (forall h, h ∉ hs -> by_h !! h = None).
Proof.
  intros Hhs. unfold init_sensor, bindM, new_sensor.
  rewrite (for_in_ok _ _ _ _ Hhs). intros Hrun.
  eapply init_inner_ok in Hrun as (by_h & H1 & H2 & H3 & H4);
    [|simpl; apply lookup_insert_eq].
  exists by_h. split; [exact H1|]. split; [|split].
  - intros s' Hne. rewrite (H2 s' Hne). simpl.
    apply lookup_insert_ne. congruence.
  - exact H3.
  - intros h Hnin. rewrite (H4 h Hnin). apply lookup_empty.
Qed.

Lemma init_outer_ok vars hs ss : forall st st',
  iter_keys (horizons vars) = Ok hs ->
  for_each ss (init_sensor vars) st = (st', Ok tt) ->
  (forall s, s ∈ ss ->
     exists by_h,
       models st' !! s = Some by_h
       /\ (forall h, h ∈ hs ->
             exists m, PredictiveModel X s h (kwargs vars) = Ok m
                       /\ by_h !! h = Some m)
       /\ (forall h, h ∉ hs -> by_h !! h = None))
  /\ (forall s, s ∉ ss -> models st' !! s = models st !! s).
Proof.
  induction ss as [|s ss IH]; intros st st' Hhs Hrun.
  - injection Hrun as <-. split; [|reflexivity].
    intros s Hin. inversion Hin.
  - rewrite for_each_cons in Hrun.
    destruct (init_sensor vars s st) as [st1 [[]|e]] eqn:Hone; [|discriminate].
    destruct (init_sensor_ok _ _ _ _ _ Hhs Hone) as (by_h & H1 & H2 & H3 & H4).
    destruct (IH st1 st' Hhs Hrun) as [Hin Hout].
    split.
    + intros s' Hs'. destruct (decide (s' ∈ ss)) as [Hin'|Hnin].
      * apply Hin, Hin'.
      * apply elem_of_cons in Hs' as [->|Hs']; [|contradiction].
        exists by_h. rewrite (Hout s Hnin). auto.
    + intros s' Hnin. apply not_elem_of_cons in Hnin as [Hne Hnin].
      rewrite (Hout s' Hnin). apply H2, Hne.
Qed.

Lemma score_and_emit_unknown sensor horizon timestamp ftr_vector measurement
    (st : state X) :
  registry_get (models st) (KStr sensor) (KInt horizon) = Raise KeyError ->
  score_and_emit sensor horizon timestamp ftr_vector measurement st
  = (st, Raise KeyError).
Proof.
  intros H. unfold score_and_emit, bindM at 1, get_model. rewrite H. reflexivity.
Qed.

End Registry.

Example read_sample_conf : read_conf sample_conf = Ok sample_vars.
Proof. reflexivity. Qed.


(** ** Initialisation runs to its end when the constructor does *)

Section InitTotal.

Context {X : Externals}.



End InitTotal.

(** ** Reading the configuration *)

#[local] Arguments String.eqb : simpl never.





(** ** Initialisation from the configuration *)

Section Initialize.

Context {X : Externals}.


(** The state in which the models are constructed: the header is
    printed and the registry is a fresh dict. *)
Lemma initialize_unfold conf vars (st : state X) :
  read_conf conf = Ok vars ->
  initialize conf st
  = match init_models vars
            {| models := ∅; world := world st;
               trace := (trace st ++ [EPrint init_header])%list |} with
    | (st', Ok _) => (st', Ok vars)
    | (st', Raise e) => (st', Raise e)
    end.
Proof.
  intros H.
  unfold initialize, bindM, print, emit, record, new_registry, lift, ret.
  cbn [models world trace]. rewrite H.
  destruct (init_models vars _) as [st' [[]|e]]; reflexivity.
Qed.

(** C3: after the init phase has run on a configuration that declares
    the sensors [ss] and the horizons [hs], the registry holds for each
    declared pair the one model constructed for it; the lookup of any
    other pair raises [KeyError], and in the prediction loop such a lookup
    leaves the state as it was: no entry is created. *)
Theorem C3_registry_after_init (conf : list (string * conf_value))
    (vars : locals) (ss hs : list pykey) (st st' : state X) :
  read_conf conf = Ok vars ->
  iter_keys (sensors vars) = Ok ss ->
  iter_keys (horizons vars) = Ok hs ->
  initialize conf st = (st', Ok vars) ->
  (forall s h, s ∈ ss -> h ∈ hs ->
     exists m, PredictiveModel X s h (kwargs vars) = Ok m
               /\ registry_get (models st') s h = Ok m)
  /\ (forall s h, ~ (s ∈ ss /\ h ∈ hs) ->
        registry_get (models st') s h = Raise KeyError)
  /\ (forall sensor horizon timestamp ftr_vector measurement,
        ~ (KStr sensor ∈ ss /\ KInt horizon ∈ hs) ->
        score_and_emit sensor horizon timestamp ftr_vector measurement st'
        = (st', Raise KeyError)).
Proof.
  intros Hconf Hss Hhs Hrun.
  rewrite (initialize_unfold _ _ _ Hconf) in Hrun.
  destruct (init_models vars _) as [st1 [[]|e]] eqn:Hinit; [|discriminate].
  injection Hrun as <-.
  unfold init_models in Hinit. rewrite (for_in_ok _ _ _ _ Hss) in Hinit.
  destruct (init_outer_ok _ _ _ _ _ Hhs Hinit) as [Hin Hout].
  assert (Hmiss : forall s h, ~ (s ∈ ss /\ h ∈ hs) ->
            registry_get (models st1) s h = Raise KeyError).
  { intros s h Hn. unfold registry_get.
    destruct (decide (s ∈ ss)) as [Hs|Hs].
    - destruct (Hin s Hs) as (by_h & -> & _ & Hnone).
      rewrite Hnone; [reflexivity|]. intros Hh. apply Hn. auto.
    - rewrite (Hout s Hs). simpl. rewrite lookup_empty. reflexivity. }
  split; [|split].
  - intros s h Hs Hh. destruct (Hin s Hs) as (by_h & Hby & Hsome & _).
    destruct (Hsome h Hh) as (m & Hm & Hlook).
    exists m. split; [exact Hm|].
    unfold registry_get. rewrite Hby, Hlook. reflexivity.
  - exact Hmiss.
  - intros sensor horizon timestamp ftr_vector measurement Hn.
    apply score_and_emit_unknown, Hmiss, Hn.
Qed.


End Initialize.

(** The init phase on [sample_conf]: the declared pair is there, the
    horizon 25 is not. *)
Lemma C3_registry_after_init_witness :
  registry_get
    (models (fst (initialize sample_conf (toy_start (toy true true) []))))
    (KStr "temp") (KInt 24) = Ok 0
  /\ registry_get
       (models (fst (initialize sample_conf (toy_start (toy true true) []))))
       (KStr "temp") (KInt 25) = Raise KeyError.
Proof.
  destruct (C3_registry_after_init (X := toy true true) sample_conf sample_vars
              [KStr "temp"] [KInt 24] (toy_start (toy true true) [])
              (fst (initialize sample_conf (toy_start (toy true true) [])))
              eq_refl eq_refl eq_refl eq_refl) as (Hin & Hout & _).
  split.
  - destruct (Hin (KStr "temp") (KInt 24)) as (m & Hm & Hget).
    + apply list_elem_of_singleton. reflexivity.
    + apply list_elem_of_singleton. reflexivity.
    + injection Hm as <-. exact Hget.
  - apply Hout. intros [_ H]. apply list_elem_of_singleton in H. discriminate.
Defined.

(** A configuration whose sensor list is empty. *)
Example read_empty_sensors :
  read_conf [("sensors", CStrs []); ("prediction_horizons", CInts [24])]
  = Ok {| sensors := CStrs []; horizons := CInts [24]; kwargs := [];
          time_offset := "h" |}.
Proof. reflexivity. Qed.



(** ** The watchdog guard *)

Section Watchdog.

Context {X : Externals}.

(** C10: the guard of the watchdog branch applies [in] to the bound
    method [conf.keys], not to its result.  For every configuration, with
    or without the key [watchdog_path], the test raises [TypeError]: the
    state is left as it was, so neither the branch that starts
    [ping_watchdog] nor the branch that reports the missing path runs, and
    a run of [main] with the watchdog flag ends in an exception. *)
Theorem C10_watchdog_guard_raises (conf : list (string * conf_value))
    (st : state X) :
  dict_getattr conf "keys" = Ok (OBoundMethod conf "keys")
  /\ py_in "watchdog_path" (OBoundMethod conf "keys") = Raise TypeError
  /\ watchdog_phase conf st = (st, Raise TypeError)
  /\ forall f s l p msgs,
       exists st' e,
         main {| arg_fit := f; arg_save := s; arg_load := l;
                 arg_watchdog := true; arg_predict := p |} conf msgs st
         = (st', Raise e).
Proof.
  split; [reflexivity|]. split; [reflexivity|]. split; [reflexivity|].
  intros f s l p msgs. unfold main, bindM. cbn [arg_fit arg_save arg_load
    arg_watchdog arg_predict].
  destruct (initialize conf st) as [st1 [vars|e]]; [|eauto].
  destruct (when f (fit_phase vars) st1) as [st2 [[]|e]]; [|eauto].
  destruct (when s (save_phase vars) st2) as [st3 [[]|e]]; [|eauto].
  destruct (when l (load_phase vars) st3) as [st4 [[]|e]]; [|eauto].
  exists st4, TypeError. reflexivity.
Qed.

End Watchdog.

(** ** File names *)

(** C9, at [time_offset = "d"]: the fit phase reads
    [../../data/fused/temp_24h.json], the save and load phases use
    [models/model_temp_24h], although the model is announced as
    [model_temp_24d]: the unit in the file names is the default ["h"] of
    [time_period], not the configured one. *)
Theorem C9_file_names_use_default_unit :
  main (X := toy true true)
    {| arg_fit := true; arg_save := true; arg_load := true;
       arg_watchdog := false; arg_predict := false |}
    [("sensors", CStrs ["temp"]); ("prediction_horizons", CInts [24]);
     ("time_offset", CStr "d")]
    [] (toy_start (toy true true) [])
  = (@Build_state (toy true true)
       {[ KStr "temp" := {[ KInt 24 := 0 ]} ]}
       ["models/model_temp_24h"; "models"; "../../data/fused"]
       [EPrint init_header;
        EPrint (Text "Initializing model_temp_24d");
        EPrint (Text "=== Learning phase ===");
        EMakedirs "../../data/fused";
        EFit "../../data/fused/temp_24h.json";
        EPrint (Traceback (OtherException "DataError"));
        EPrint (Text "=== Saving phase ===");
        EMakedirs "models";
        ESave "models/model_temp_24h";
        EPrint (SavedModel "models/model_temp_24h");
        EPrint (Text "=== Loading phase ===");
        ELoad "models/model_temp_24h";
        EPrint (LoadedModel "models/model_temp_24h")],
     Ok tt).
Proof. reflexivity. Qed.

(** ** The load phase *)

Section LoadPhase.

Context {X : Externals}.

Lemma ensure_dir_models subdir (st st' : state X) r :
  ensure_dir subdir st = (st', r) -> models st' = models st.
Proof.
  unfold ensure_dir, external.
  destruct (isdir X subdir (world st)).
  - intros [= <- _]. reflexivity.
  - destruct (makedirs X subdir (world st)) as [w r'].
    intros [= <- _]. reflexivity.
Qed.

Lemma get_model_file_name_models s h tp (st st' : state X) r :
  get_model_file_name s h tp st = (st', r) -> models st' = models st.
Proof.
  unfold get_model_file_name, bindM, ret.
  destruct (ensure_dir "models" st) as [st1 [[]|e]] eqn:Hdir;
    intros [= <- _]; eapply ensure_dir_models; exact Hdir.
Qed.

(** The path is [models/model_<sensor>_<horizon><time_period>]. *)
Lemma get_model_file_name_path s h tp (st st' : state X) p :
  get_model_file_name s h tp st = (st', Ok p) ->
  p = "models/" ++ model_label s h tp.
Proof.
  unfold get_model_file_name, bindM, ret.
  destruct (ensure_dir "models" st) as [st1 [[]|e]]; [|discriminate].
  intros [= _ <-]. reflexivity.
Qed.

(** A per-model load that raises makes the body of the loop raise. *)
Lemma load_one_raises s h (st st1 : state X) filename m m' w' e :
  get_model_file_name s h default_time_period st = (st1, Ok filename) ->
  registry_get (models st) s h = Ok m ->
  load X m filename (world st1) = (m', w', Raise e) ->
  load_one s h st
  = ({| models := registry_update (models st) s h m'; world := w';
        trace := (trace st1 ++ [ELoad filename])%list |}, Raise e).
Proof.
  intros Hname Hget Hload.
  pose proof (get_model_file_name_models _ _ _ _ _ _ Hname) as Hms.
  unfold load_one. unfold bindM at 1. unfold get_model at 1. rewrite Hget.
  unfold bindM at 1. rewrite Hname.
  unfold bindM, call_method. rewrite Hms, Hget, Hload. reflexivity.
Qed.

(** The fit phase, for comparison: an [Exception] raised by the fit of
    one model is printed, and the phase goes on with the next model. *)
Lemma fit_one_catches vars s h (st st1 : state X) data m m' w' e :
  get_data_file_name s h default_time_period st = (st1, Ok data) ->
  registry_get (models st1) s h = Ok m ->
  fit X m data (world st1) = (m', w', Raise e) ->
  is_Exception e = true ->
  fit_one vars s h st
  = ({| models := registry_update (models st1) s h m'; world := w';
        trace := (trace st1 ++ [EFit data; EPrint (Traceback e)])%list |},
     Ok tt).
Proof.
  intros Hname Hget Hfit He.
  unfold fit_one. unfold bindM at 1. rewrite Hname.
  unfold try_except, bindM, call_method. rewrite Hget, Hfit, He.
  unfold print, emit, record. cbn [models world trace].
  rewrite <- app_assoc. reflexivity.
Qed.

(** C7, on the code: the claim does not hold, the load phase does not
    catch the exception of a per-model load.  When the loads before the
    pair [(s, h)] succeed and the load of that pair raises [e], the phase
    ends there with [e]: its last action is that load, and no later model
    is loaded. *)
Theorem C7_load_failure_aborts (vars : locals) (ss1 ss2 hs1 hs2 : list pykey)
    (s h : pykey) (st st1 st2 st3 : state X) (filename : string)
    (m m' : Model X) (w' : World X) (e : exn) :
  iter_keys (sensors vars) = Ok (ss1 ++ s :: ss2)%list ->
  iter_keys (horizons vars) = Ok (hs1 ++ h :: hs2)%list ->
  for_each ss1 (fun sensor => for_in (horizons vars) (load_one sensor))
    (record (EPrint (Text "=== Loading phase ===")) st) = (st1, Ok tt) ->
  for_each hs1 (load_one s) st1 = (st2, Ok tt) ->
  get_model_file_name s h default_time_period st2 = (st3, Ok filename) ->
  registry_get (models st2) s h = Ok m ->
  load X m filename (world st3) = (m', w', Raise e) ->
  load_phase vars st
  = ({| models := registry_update (models st2) s h m'; world := w';
        trace := (trace st3 ++ [ELoad filename])%list |}, Raise e).
Proof.
  intros Hss Hhs Hpre1 Hpre2 Hname Hget Hload.
  unfold load_phase, bindM, print, emit.
  rewrite (for_in_ok _ _ _ _ Hss), for_each_app, Hpre1, for_each_cons.
  rewrite (for_in_ok _ _ _ _ Hhs), for_each_app, Hpre2, for_each_cons.
  rewrite (load_one_raises _ _ _ _ _ _ _ _ _ Hname Hget Hload).
  reflexivity.
Qed.

End LoadPhase.

(** Two models, no model file: the phase ends at the first load. *)
Lemma C7_load_failure_aborts_witness :
  load_phase two_sensor_vars (toy_ready two_sensor_vars ["models"])
  = (@Build_state (toy true true)
       {[ KStr "a" := {[ KInt 1 := 0 ]}; KStr "b" := {[ KInt 1 := 0 ]} ]}
       ["models"]
       [EPrint (Text "Initializing model_a_1h");
        EPrint (Text "Initializing model_b_1h");
        EPrint (Text "=== Loading phase ===");
        ELoad "models/model_a_1h"],
     Raise (OtherException "PersistenceError")).
Proof.
  exact (C7_load_failure_aborts (X := toy true true) two_sensor_vars
           [] [KStr "b"] [] [] (KStr "a") (KInt 1)
           (toy_ready two_sensor_vars ["models"])
           (record (EPrint (Text "=== Loading phase ==="))
              (toy_ready two_sensor_vars ["models"]))
           (record (EPrint (Text "=== Loading phase ==="))
              (toy_ready two_sensor_vars ["models"]))
           (record (EPrint (Text "=== Loading phase ==="))
              (toy_ready two_sensor_vars ["models"]))
           "models/model_a_1h" 0 0 ["models"]
           (OtherException "PersistenceError")
           eq_refl eq_refl eq_refl eq_refl eq_refl eq_refl eq_refl).
Defined.

(** With two models and no file for the first, [main] ends in the error
    of the first load; the second model is never loaded. *)
Example load_failure_ends_main :
  main (X := toy true true)
    {| arg_fit := false; arg_save := false; arg_load := true;
       arg_watchdog := false; arg_predict := false |}
    [("sensors", CStrs ["a"; "b"]); ("prediction_horizons", CInts [1])]
    [] (toy_start (toy true true) ["models"])
  = (@Build_state (toy true true)
       {[ KStr "a" := {[ KInt 1 := 0 ]}; KStr "b" := {[ KInt 1 := 0 ]} ]}
       ["models"]
       [EPrint init_header;
        EPrint (Text "Initializing model_a_1h");
        EPrint (Text "Initializing model_b_1h");
        EPrint (Text "=== Loading phase ===");
        ELoad "models/model_a_1h"],
     Raise (OtherException "PersistenceError")).
Proof. reflexivity. Qed.

(** ** Payloads that are data *)


Lemma eval_list_data items :
  Forall (fun e => is_data e = true -> exists v, eval_expr e = ([], Ok v)) items ->
  forallb is_data items = true ->
  exists vs, eval_list eval_expr items = ([], Ok vs).
Proof.
  induction 1 as [|e items He _ IH]; simpl; intros Hd.
  - eexists. reflexivity.
  - apply andb_true_iff in Hd as [Hd1 Hd2].
    destruct (He Hd1) as [v ->]. destruct (IH Hd2) as [vs ->].
    eexists. reflexivity.
Qed.

Lemma eval_pairs_data items :
  Forall (fun p => is_data (snd p) = true ->
                   exists v, eval_expr (snd p) = ([], Ok v)) items ->
  forallb (fun p => is_data (snd p)) items = true ->
  forall acc, exists d, eval_pairs eval_expr items acc = ([], Ok d).
Proof.
  induction 1 as [|[k e] items He _ IH]; simpl; intros Hd acc.
  - eexists. reflexivity.
  - apply andb_true_iff in Hd as [Hd1 Hd2]. simpl in He, Hd1.
    destruct (He Hd1) as [v ->].
    destruct (IH Hd2 (dict_set k v acc)) as [d ->].
    eexists. reflexivity.
Qed.

(** A payload that is data evaluates to a value and does nothing else. *)
Lemma eval_data e :
  is_data e = true -> exists v, eval_expr e = ([], Ok v).
Proof.
  induction e using pyexpr_nested_ind; simpl; intros Hd;
    try discriminate; try (eexists; reflexivity).
  - destruct (eval_list_data items H Hd) as [vs ->]. eexists. reflexivity.
  - destruct (eval_pairs_data items H Hd []) as [d ->]. eexists. reflexivity.
Qed.

(** ** One record of the prediction loop *)

Section Record.

Context {X : Externals}.

Lemma registry_get_update (ms : gmap pykey (gmap pykey (Model X))) s h m m' :
  registry_get ms s h = Ok m ->
  registry_get (registry_update ms s h m') s h = Ok m'.
Proof.
  unfold registry_get, registry_update.
  destruct (ms !! s) as [by_h|] eqn:Hs; [|discriminate].
  intros _. rewrite lookup_insert_eq, lookup_insert_eq. reflexivity.
Qed.


End Record.

(** ** The fields of a record and the exceptions of the early steps *)


Lemma getitem_str_exn v k e :
  getitem_str v k = Raise e -> is_Exception e = true.
Proof.
  destruct v; simpl; try (intros [= <-]; reflexivity).
  destruct (dict_get k d); [discriminate | intros [= <-]; reflexivity].
Qed.

Lemma getitem_0_exn v e : getitem_0 v = Raise e -> is_Exception e = true.
Proof.
  destruct v as [| | | |s|l|d]; simpl; try (intros [= <-]; reflexivity).
  - destruct s; [intros [= <-]; reflexivity | discriminate].
  - destruct l; [intros [= <-]; reflexivity | discriminate].
Qed.

Lemma index_from_end_exn {A : Type} (l : list A) k e :
  PyStr.index_from_end l k = Raise e -> is_Exception e = true.
Proof.
  unfold PyStr.index_from_end.
  destruct (nth_error _ _); [discriminate | intros [= <-]; reflexivity].
Qed.

Lemma int_exn s e : PyStr.int s = Raise e -> is_Exception e = true.
Proof.
  unfold PyStr.int.
  destruct (match PyStr.rstrip (PyStr.lstrip s) with
            | String "-" r => (true, r)
            | String "+" r => (false, r)
            | _ => (false, PyStr.rstrip (PyStr.lstrip s))
            end) as [neg body].
  destruct (PyStr.digits_of false body);
    [discriminate | intros [= <-]; reflexivity].
Qed.

(** Key resolution fails with [ValueError] or [IndexError] only. *)
Lemma resolve_key_exn topic0 time_offset0 e :
  resolve_key topic0 time_offset0 = Raise e -> is_Exception e = true.
Proof.
  unfold resolve_key, bind.
  destruct (PyStr.index_from_end (PyStr.split "_" topic0) 1) as [last|e1] eqn:H1.
  - destruct (PyStr.int _) as [h|e2] eqn:H2.
    + destruct (PyStr.index_from_end (PyStr.split "_" topic0) 2) as [s|e3] eqn:H3;
        [discriminate|].
      intros [= <-]. eapply index_from_end_exn, H3.
    + intros [= <-]. eapply int_exn, H2.
  - intros [= <-]. eapply index_from_end_exn, H1.
Qed.

Section Loop.

Context {X : Externals}.

Lemma registry_get_exn (ms : gmap pykey (gmap pykey (Model X))) s h e :
  registry_get ms s h = Raise e -> is_Exception e = true.
Proof.
  unfold registry_get. destruct (ms !! s) as [by_h|].
  - destruct (by_h !! h); [discriminate | intros [= <-]; reflexivity].
  - intros [= <-]. reflexivity.
Qed.


(** With a plain payload, decoding leaves the state as it is, and fails
    with an [Exception] if it fails. *)
Lemma decode_record_plain msg (st st1 : state X) r :
  plain_payload (value msg) ->
  decode_record msg st = (st1, r) ->
  st1 = st /\ (forall e, r = Raise e -> is_Exception e = true).
Proof.
  intros Hplain. unfold decode_record, bindM, lift, ret.
  assert (Heval : exists r0, eval (value msg) = ([], r0)
            /\ forall e, r0 = Raise e -> is_Exception e = true).
  { destruct (value msg) as [|ex]; simpl in *.
    - eexists. split; [reflexivity|]. intros e [= <-]. reflexivity.
    - destruct (eval_data ex Hplain) as [v ->].
      eexists. split; [reflexivity|]. discriminate. }
  destruct Heval as (r0 & -> & Hr0).
  assert (Hst : {| models := models st; world := world st;
                   trace := (trace st ++ [])%list |} = st).
  { rewrite app_nil_r. destruct st; reflexivity. }
  rewrite Hst.
  destruct r0 as [rec|e0].
  - destruct (getitem_str rec "timestamp") as [ts|e1] eqn:H1.
    + destruct (getitem_str rec "ftr_vector") as [fv|e2] eqn:H2.
      * destruct (getitem_0 fv) as [meas|e3] eqn:H3.
        -- intros [= <- <-]. split; [reflexivity | discriminate].
        -- intros [= <- <-]. split; [reflexivity|].
           intros e [= <-]. eapply getitem_0_exn, H3.
      * intros [= <- <-]. split; [reflexivity|].
        intros e [= <-]. eapply getitem_str_exn, H2.
    + intros [= <- <-]. split; [reflexivity|].
      intros e [= <-]. eapply getitem_str_exn, H1.
  - intros [= <- <-]. split; [reflexivity|].
    intros e [= <-]. apply Hr0. reflexivity.
Qed.

Lemma handle_record_run time_offset0 msg (st st0 : state X) timestamp ftr_vector
    measurement sensor horizon :
  decode_record msg st = (st0, Ok (timestamp, ftr_vector, measurement)) ->
  resolve_key (topic msg) time_offset0 = Ok (sensor, horizon) ->
  handle_record time_offset0 msg st
  = score_and_emit sensor horizon timestamp ftr_vector measurement st0.
Proof.
  intros Hd Hr. unfold handle_record. unfold bindM at 1. rewrite Hd.
  unfold bindM at 1. unfold lift. rewrite Hr. reflexivity.
Qed.

Lemma score_and_emit_lookup_raises sensor horizon timestamp ftr_vector
    measurement (st : state X) e :
  registry_get (models st) (KStr sensor) (KInt horizon) = Raise e ->
  score_and_emit sensor horizon timestamp ftr_vector measurement st
  = (st, Raise e).
Proof.
  intros H. unfold score_and_emit, bindM at 1, get_model. rewrite H. reflexivity.
Qed.

(** A failure in one of the first three steps is the failure of the
    handling. *)
Lemma early_failure_raises time_offset0 msg (st st1 : state X) e :
  early_failure time_offset0 msg st st1 e ->
  handle_record time_offset0 msg st = (st1, Raise e).
Proof.
  intros [Hd | [(fields & Hd & Hr) | (fields & sensor & horizon & Hd & Hr & Hg)]].
  - unfold handle_record, bindM. rewrite Hd. reflexivity.
  - unfold handle_record. unfold bindM at 1. rewrite Hd.
    destruct fields as [[ts fv] meas].
    unfold bindM at 1. unfold lift. rewrite Hr. reflexivity.
  - destruct fields as [[ts fv] meas].
    rewrite (handle_record_run _ _ _ _ _ _ _ _ _ Hd Hr).
    apply score_and_emit_lookup_raises, Hg.
Qed.

End Loop.

Section LoopClaims.

Context {X : Externals}.

(** C4, on the code: the claim does not hold.  A record whose payload is
    [sys.exit(n)] fails in payload decoding with [SystemExit], which the
    handler of line 254, [except Exception], does not catch.  Nothing is
    logged, the state is as it was before the record, and the loop ends
    with that exception without handling the records behind it. *)
Theorem C4_exit_payload_ends_loop (time_offset0 : string) (msg : message)
    (rest : list message) (st : state X) (n : Z) :
  value msg = Source (ECallSysExit (EInt n)) ->
  early_failure time_offset0 msg st st (SystemExit (VInt n))
  /\ is_Exception (SystemExit (VInt n)) = false
  /\ predict_loop time_offset0 (msg :: rest) st
     = (st, Raise (SystemExit (VInt n))).
Proof.
  intros Hv.
  assert (Hd : decode_record msg st = (st, Raise (SystemExit (VInt n)))).
  { unfold decode_record, bindM. rewrite Hv. simpl.
    rewrite app_nil_r. destruct st; reflexivity. }
  split; [left; exact Hd|]. split; [reflexivity|].
  unfold predict_loop. rewrite for_each_cons. unfold consume, try_except.
  rewrite (early_failure_raises _ _ _ _ _ (or_introl Hd)). reflexivity.
Qed.



End LoopClaims.

(** ** The loop on the sample records *)

Lemma C4_exit_payload_ends_loop_witness :
  predict_loop (X := toy true true) "h" [exit_record; good_record]
    (toy_ready sample_vars [])
  = (toy_ready sample_vars [], Raise (SystemExit (VInt 1))).
Proof.
  exact (proj2 (proj2 (C4_exit_payload_ends_loop (X := toy true true) "h"
                         exit_record [good_record] (toy_ready sample_vars [])
                         1 eq_refl))).
Defined.

(** The unparsable record and the well-formed one: one consumer error,
    then one prediction. *)
Example bad_then_good :
  trace (fst (predict_loop (X := toy true true) "h" [bad_record; good_record]
                (toy_ready sample_vars [])))
  = [EPrint (Text "Initializing model_temp_24h");
     EPrint (ConsumerError SyntaxError);
     ESend "predictions_temp"
       (VDict (output_fields "temp" 24 (VInt 1700000000) (VFloat (43 # 2))
                 (VInt 0) ++ [("error", VInt 0)])%list);
     EPrint (Prediction "predictions_temp"
       (VDict (output_fields "temp" 24 (VInt 1700000000) (VFloat (43 # 2))
                 (VInt 0) ++ [("error", VInt 0)])%list));
     EAwait (Some 10)].
Proof. reflexivity. Qed.



(** ** Payloads that are code *)

(** C1, at the payloads [print('pwned')] and [sys.exit(1)]: [eval] runs
    the call in the payload.  The first writes the sender's text to the
    output of the process before the record is rejected; the second ends
    the loop.  A payload that is data is evaluated without any action
    ([eval_data]). *)
Theorem C1_eval_executes_payload :
  eval (value print_record)
  = ([EPrint (PayloadOutput [VStr "pwned"])], Ok VNone)
  /\ predict_loop (X := toy true true) "h" [print_record]
       (toy_ready sample_vars [])
     = (@Build_state (toy true true)
          {[ KStr "temp" := {[ KInt 24 := 0 ]} ]} []
          [EPrint (Text "Initializing model_temp_24h");
           EPrint (PayloadOutput [VStr "pwned"]);
           EPrint (ConsumerError TypeError)],
        Ok tt)
  /\ eval (value exit_record) = ([], Raise (SystemExit (VInt 1)))
  /\ predict_loop (X := toy true true) "h" [exit_record]
       (toy_ready sample_vars [])
     = (toy_ready sample_vars [], Raise (SystemExit (VInt 1)))
  /\ is_data (ECallPrint [EStr "pwned"]) = false
  /\ is_data (ECallSysExit (EInt 1)) = false.
Proof. repeat split; reflexivity. Qed.

(** * Further properties of the code *)

(** ** The resolver of topic names (lines 226-227) *)

Lemma split_not_nil sep s : PyStr.split sep s <> [].
Proof.
  destruct s as [|c s]; simpl; [discriminate|].
  destruct (Ascii.eqb c sep); [discriminate|].
  destruct (PyStr.split sep s); discriminate.
Qed.

(** Splitting around a separator splits both sides. *)
Lemma split_concat sep a b :
  PyStr.split sep (a ++ String sep b)
  = (PyStr.split sep a ++ PyStr.split sep b)%list.
Proof.
  induction a as [|c a IH]; simpl.
  - rewrite Ascii.eqb_refl. reflexivity.
  - destruct (Ascii.eqb c sep); [rewrite IH; reflexivity|].
    rewrite IH. pose proof (split_not_nil sep a) as Hne.
    destruct (PyStr.split sep a); [congruence | reflexivity].
Qed.

Lemma index_from_end_last2 {A : Type} (l : list A) x y :
  PyStr.index_from_end (l ++ [x; y])%list 1 = Ok y
  /\ PyStr.index_from_end (l ++ [x; y])%list 2 = Ok x.
Proof.
  unfold PyStr.index_from_end. rewrite rev_app_distr. split; reflexivity.
Qed.

Lemma str_int_neg p :
  PyStr.str_int (Z.neg p)
  = String "-" (NilEmpty.string_of_uint (Pos.to_uint p)).
Proof.
  unfold PyStr.str_int. simpl.
  pose proof (DecimalPos.Unsigned.to_uint_nonnil p) as Hn.
  unfold NilZero.string_of_uint.
  destruct (Pos.to_uint p); [congruence | reflexivity ..].
Qed.

Lemma digits_no_underscore s :
  all_chars is_digit s = true -> contains_char "_" s = false.
Proof.
  induction s as [|c s IH]; simpl; [reflexivity|].
  intros H. apply andb_true_iff in H as [Hc Hs].
  rewrite (digit_not_underscore _ Hc), (IH Hs). reflexivity.
Qed.

(** [str] of an integer has no underscore. *)
Lemma str_int_plain h : contains_char "_" (PyStr.str_int h) = false.
Proof.
  destruct h as [|p|p].
  - reflexivity.
  - rewrite str_int_pos. apply digits_no_underscore, string_of_uint_digits.
  - rewrite str_int_neg. simpl.
    apply digits_no_underscore, string_of_uint_digits.
Qed.

(** [int] reads back what [str] writes, for every integer. *)
Lemma int_str_int_all h : PyStr.int (PyStr.str_int h) = Ok h.
Proof.
  destruct h as [|p|p].
  - reflexivity.
  - apply int_str_int. lia.
  - rewrite str_int_neg.
    pose proof (string_of_uint_digits (Pos.to_uint p)) as Hd.
    pose proof (DecimalPos.Unsigned.to_uint_nonnil p) as Hn.
    assert (Hsp : all_chars (fun c => negb (PyStr.is_space c))
                    (String "-" (NilEmpty.string_of_uint (Pos.to_uint p)))
                  = true).
    { simpl. eapply all_chars_impl; [apply digit_not_space | exact Hd]. }
    unfold PyStr.int. rewrite lstrip_no_space, rstrip_no_space by exact Hsp.
    rewrite digits_of_start by exact Hn.
    f_equal.
    change (- Z.of_uint (Pos.to_uint p))
      with (Z.of_int (Z.to_int (Z.neg p))).
    apply DecimalZ.of_to.
Qed.

Lemma resolve_key_suffix (prefix s u u' : string) (h : Z) :
  contains_char "_" s = false ->
  u <> EmptyString ->
  contains_char "_" u = false ->
  String.length u' = String.length u ->
  resolve_key (prefix ++ String "_" (s ++ String "_" (PyStr.str_int h ++ u))) u'
  = Ok (s, h).
Proof.
  intros Hs Hu Hu_ Hlen. unfold resolve_key.
  rewrite split_concat, (split_app "_" s) by exact Hs.
  rewrite (split_no_sep "_" (PyStr.str_int h ++ u))
    by (rewrite contains_char_app, str_int_plain, Hu_; reflexivity).
  destruct (index_from_end_last2 (PyStr.split "_" prefix) s
              (PyStr.str_int h ++ u)) as [-> ->].
  cbn [bind]. rewrite Hlen, slice_to_suffix by exact Hu.
  rewrite int_str_int_all. reflexivity.
Qed.

(** X1.  The resolver reads the last two components only: whatever stands
    before them, underscores included, and whatever characters stand in
    the place of the unit, a label [<prefix>_<s>_<h><u>] resolves to
    [(s, h)] for every integer [h], when [s] has no underscore, [u] is
    non-empty without underscore, and the configured unit [u'] is as long
    as [u]. *)
Theorem resolve_key_last_two_components (prefix s u u' : string) (h : Z) :
  contains_char "_" s = false ->
  u <> EmptyString ->
  contains_char "_" u = false ->
  String.length u' = String.length u ->
  resolve_key (prefix ++ String "_" (s ++ String "_" (PyStr.str_int h ++ u))) u'
  = Ok (s, h).
Proof. apply resolve_key_suffix. Qed.

Lemma resolve_key_last_two_components_witness :
  resolve_key "raw_features_temp_-3d" "h" = Ok ("temp", -3).
Proof.
  exact (resolve_key_last_two_components "raw_features" "temp" "d" "h" (-3)
           eq_refl ltac:(discriminate) eq_refl eq_refl).
Defined.

(** X2.  A label without underscore never resolves: its only component is read
    as the horizon, and either that fails with [ValueError] or the sensor
    component is missing, [IndexError]. *)
Theorem resolve_key_needs_two_components (topic0 u : string) :
  contains_char "_" topic0 = false ->
  resolve_key topic0 u = Raise ValueError
  \/ resolve_key topic0 u = Raise IndexError.
Proof.
  intros H. unfold resolve_key. rewrite (split_no_sep _ _ H).
  cbn [PyStr.index_from_end rev app nth_error Nat.pred bind].
  unfold PyStr.int.
  destruct (match PyStr.rstrip (PyStr.lstrip (PyStr.slice_to topic0 _)) with
            | String "-" r => (true, r)
            | String "+" r => (false, r)
            | _ => (false, PyStr.rstrip (PyStr.lstrip (PyStr.slice_to topic0 _)))
            end) as [neg body].
  destruct (PyStr.digits_of false body); [right | left]; reflexivity.
Qed.

Lemma resolve_key_needs_two_components_witness :
  resolve_key "24h" "h" = Raise ValueError
  \/ resolve_key "24h" "h" = Raise IndexError.
Proof. exact (resolve_key_needs_two_components "24h" "h" eq_refl). Defined.

(** ** The topics subscribed to (lines 44-50) *)

Lemma topics_loop_ok ss horizons0 hs tp : forall acc,
  iter_keys horizons0 = Ok hs ->
  topics_loop ss horizons0 tp acc
  = Ok (acc ++ flat_map (fun s => map (fun h => topic_name s h tp) hs) ss)%list.
Proof.
  induction ss as [|s ss IH]; intros acc Hhs; simpl.
  - rewrite app_nil_r. reflexivity.
  - rewrite Hhs. cbn [bind]. rewrite IH by exact Hhs.
    rewrite <- app_assoc. reflexivity.
Qed.

(** X3.  [get_input_data_topics] returns one topic per pair, sensors outermost,
    in the order of the two lists; with no sensor it returns the empty
    list even when the horizons are [None]; with a sensor and horizons
    that cannot be iterated it raises [TypeError]. *)
Theorem get_input_data_topics_pairs (sensors0 horizons0 : conf_value)
    (tp : string) (ss : list pykey) :
  iter_keys sensors0 = Ok ss ->
  (forall hs, iter_keys horizons0 = Ok hs ->
     get_input_data_topics sensors0 horizons0 tp
     = Ok (flat_map (fun s => map (fun h => topic_name s h tp) hs) ss)
     /\ forall topics,
          get_input_data_topics sensors0 horizons0 tp = Ok topics ->
          length topics = (length ss * length hs)%nat)
  /\ (ss = [] -> get_input_data_topics sensors0 horizons0 tp = Ok [])
  /\ (forall e, iter_keys horizons0 = Raise e -> ss <> [] ->
        get_input_data_topics sensors0 horizons0 tp = Raise TypeError).
Proof.
  intros Hss. unfold get_input_data_topics. rewrite Hss. cbn [bind].
  split; [|split].
  - intros hs Hhs. rewrite (topics_loop_ok _ _ _ _ [] Hhs). simpl.
    split; [reflexivity|]. intros topics [= <-].
    clear Hss. induction ss as [|s ss IH]; simpl; [reflexivity|].
    rewrite List.length_app, List.length_map, IH. reflexivity.
  - intros ->. reflexivity.
  - intros e He Hne. destruct ss as [|s ss]; [congruence|]. simpl.
    destruct horizons0; simpl in *; try discriminate; reflexivity.
Qed.

Lemma get_input_data_topics_pairs_witness :
  get_input_data_topics (CStrs ["a"; "b"]) (CInts [1; 24]) "h"
  = Ok ["features_a_1h"; "features_a_24h"; "features_b_1h"; "features_b_24h"].
Proof.
  exact (proj1 (proj1 (get_input_data_topics_pairs (CStrs ["a"; "b"])
                         (CInts [1; 24]) "h" [KStr "a"; KStr "b"] eq_refl)
                  [KInt 1; KInt 24] eq_refl)).
Defined.

(** ** The variables read from the configuration (lines 128-144) *)

Lemma dict_get_set {A : Type} k key (v : A) d :
  dict_get k (dict_set key v d)
  = if String.eqb k key then Some v else dict_get k d.
Proof.
  induction d as [|[k' v'] d IH]; simpl.
  - destruct (String.eqb k key); reflexivity.
  - destruct (String.eqb_spec key k') as [->|Hne]; simpl.
    + destruct (String.eqb k k'); reflexivity.
    + rewrite IH. destruct (String.eqb_spec k key) as [->|Hne'].
      * apply String.eqb_neq in Hne. rewrite Hne. reflexivity.
      * reflexivity.
Qed.

Lemma read_key_rest conf vars key vars' :
  read_key conf vars key = Ok vars' ->
  (forall k,
     dict_get k (kwargs vars')
     = if String.eqb k key && negb (is_registry_key key)
       then dict_get k conf else dict_get k (kwargs vars))
  /\ (time_offset vars' = time_offset vars
      \/ exists v, dict_get "time_offset" conf = Some v
                   /\ conf_lower v = Ok (time_offset vars')).
Proof.
  unfold read_key, conf_item, bind, is_registry_key.
  destruct (String.eqb "sensors" key) eqn:Hs.
  - destruct (dict_get key conf); [|discriminate].
    intros [= <-]. simpl. split; [|left; reflexivity].
    intros k. rewrite andb_false_r. reflexivity.
  - destruct (String.eqb "prediction_horizons" key) eqn:Hh.
    + destruct (dict_get key conf); [|discriminate].
      intros [= <-]. simpl. split; [|left; reflexivity].
      intros k. rewrite andb_false_r. reflexivity.
    + destruct (dict_get key conf) as [v|] eqn:Hv; [|discriminate].
      assert (Hkw : forall k,
        dict_get k (dict_set key v (kwargs vars))
        = if String.eqb k key && negb (false || false)
          then dict_get k conf else dict_get k (kwargs vars)).
      { intros k. rewrite dict_get_set. simpl. rewrite andb_true_r.
        destruct (String.eqb_spec k key) as [->|_]; [|reflexivity].
        symmetry. exact Hv. }
      destruct (String.eqb "time_offset" key).
      * destruct (dict_get "time_offset" conf) as [t|] eqn:Ht; [|discriminate].
        destruct (conf_lower t) as [t'|] eqn:Hl; [|discriminate].
        intros [= <-]. simpl. split; [exact Hkw|]. right. eauto.
      * intros [= <-]. simpl. split; [exact Hkw|]. left. reflexivity.
Qed.

Lemma read_keys_rest conf keys : forall vars vars',
  read_keys conf keys vars = Ok vars' ->
  (forall k,
     dict_get k (kwargs vars')
     = if existsb (String.eqb k) keys && negb (is_registry_key k)
       then dict_get k conf else dict_get k (kwargs vars))
  /\ (time_offset vars' = time_offset vars
      \/ exists v, dict_get "time_offset" conf = Some v
                   /\ conf_lower v = Ok (time_offset vars')).
Proof.
  induction keys as [|key keys IH]; intros vars vars' Hrun; simpl in Hrun.
  - injection Hrun as <-. split; [reflexivity | left; reflexivity].
  - destruct (read_key conf vars key) as [vars1|e] eqn:Hkey; [|discriminate].
    simpl in Hrun. apply IH in Hrun as [Hkw Ht]. clear IH.
    apply read_key_rest in Hkey as [Kkw Kt].
    split.
    + intros k. rewrite Hkw, Kkw. simpl.
      destruct (String.eqb_spec k key) as [->|Hne]; simpl.
      * destruct (is_registry_key key); simpl.
        -- rewrite andb_false_r. reflexivity.
        -- destruct (existsb (String.eqb key) keys); reflexivity.
      * reflexivity.
    + destruct Ht as [Ht|Ht]; [|right; exact Ht].
      rewrite Ht. exact Kt.
Qed.

(** X4.  The unit of time is the [time_offset] entry in lower case, and ["h"]
    when there is none; an entry that is not a string stops the reading
    with [AttributeError]. *)
Theorem read_conf_time_offset (conf : list (string * conf_value)) :
  (forall vars, read_conf conf = Ok vars ->
     match dict_get "time_offset" conf with
     | None => time_offset vars = "h"
     | Some v => exists s, v = CStr s /\ time_offset vars = PyStr.lower s
     end)
  /\ (forall v, dict_get "time_offset" conf = Some v ->
        (forall s, v <> CStr s) ->
        read_conf conf = Raise AttributeError).
Proof.
  unfold read_conf. split.
  - intros vars H.
    destruct (dict_get "time_offset" conf) as [v|] eqn:Hv.
    + destruct (conf_lower v) as [t0|e] eqn:Hl; [|discriminate].
      cbn [bind] in H. apply read_keys_rest in H as [_ Ht].
      simpl in Ht.
      assert (time_offset vars = t0) as ->.
      { destruct Ht as [Ht | (v' & Hv' & Hl')]; [exact Ht | congruence]. }
      destruct v; try discriminate. injection Hl as <-. eauto.
    + cbn [bind] in H. apply read_keys_rest in H as [_ Ht].
      destruct Ht as [Ht | (v' & Hv' & _)]; [exact Ht | congruence].
  - intros v Hv Hnot. rewrite Hv.
    destruct v; try reflexivity. exfalso. eapply Hnot. reflexivity.
Qed.

Lemma read_conf_time_offset_witness :
  exists s, CStr "D" = CStr s /\ "d" = PyStr.lower s.
Proof.
  exact (proj1 (read_conf_time_offset
                  [("time_offset", CStr "D"); ("sensors", CStrs ["temp"])])
           {| sensors := CStrs ["temp"]; horizons := CNull;
              kwargs := [("time_offset", CStr "D")]; time_offset := "d" |}
           eq_refl).
Defined.



(** ** From the configuration to the model of a record *)

Section Routing.

Context {X : Externals}.

Lemma initialize_lookup conf vars ss hs (st st' : state X) :
  read_conf conf = Ok vars ->
  iter_keys (sensors vars) = Ok ss ->
  iter_keys (horizons vars) = Ok hs ->
  initialize conf st = (st', Ok vars) ->
  (forall s h, s ∈ ss -> h ∈ hs ->
     exists m, PredictiveModel X s h (kwargs vars) = Ok m
               /\ registry_get (models st') s h = Ok m)
  /\ (forall s h, ~ (s ∈ ss /\ h ∈ hs) ->
        registry_get (models st') s h = Raise KeyError).
Proof.
  intros Hconf Hss Hhs Hrun.
  rewrite (initialize_unfold _ _ _ Hconf) in Hrun.
  destruct (init_models vars _) as [st1 [[]|e]] eqn:Hinit; [|discriminate].
  injection Hrun as <-.
  unfold init_models in Hinit. rewrite (for_in_ok _ _ _ _ Hss) in Hinit.
  destruct (init_outer_ok _ _ _ _ _ Hhs Hinit) as [Hin Hout].
  split.
  - intros s h Hs Hh. destruct (Hin s Hs) as (by_h & Hby & Hsome & _).
    destruct (Hsome h Hh) as (m & Hm & Hlook).
    exists m. split; [exact Hm|].
    unfold registry_get. rewrite Hby, Hlook. reflexivity.
  - intros s h Hn. unfold registry_get.
    destruct (decide (s ∈ ss)) as [Hs|Hs].
    + destruct (Hin s Hs) as (by_h & -> & _ & Hnone).
      rewrite Hnone; [reflexivity|]. intros Hh. apply Hn. auto.
    + rewrite (Hout s Hs). simpl. rewrite lookup_empty. reflexivity.
Qed.

(** X6.  Sensors given as strings without underscore, horizons as integers, a
    non-empty unit without underscore: every topic the consumer subscribes
    to resolves to a declared pair, and the registry built by the init
    phase holds a model for it.  No record on a subscribed topic is lost
    to [RoutingError] or [KeyError]. *)
Theorem subscribed_topics_reach_a_model (conf : list (string * conf_value))
    (vars : locals) (names : list string) (zs : list Z) (st st' : state X)
    (topics : list string) :
  read_conf conf = Ok vars ->
  sensors vars = CStrs names ->
  horizons vars = CInts zs ->
  (forall s, In s names -> contains_char "_" s = false) ->
  time_offset vars <> EmptyString ->
  contains_char "_" (time_offset vars) = false ->
  initialize conf st = (st', Ok vars) ->
  get_input_data_topics (sensors vars) (horizons vars) (time_offset vars)
  = Ok topics ->
  forall t, In t topics ->
    exists s h m,
      In s names /\ In h zs
      /\ resolve_key t (time_offset vars) = Ok (s, h)
      /\ registry_get (models st') (KStr s) (KInt h) = Ok m.
Proof.
  intros Hconf Hs Hh Hnames Hu Hu_ Hinit Htopics t Ht.
  assert (Hss : iter_keys (sensors vars) = Ok (map KStr names))
    by (rewrite Hs; reflexivity).
  assert (Hhs : iter_keys (horizons vars) = Ok (map KInt zs))
    by (rewrite Hh; reflexivity).
  unfold get_input_data_topics in Htopics. rewrite Hss in Htopics.
  cbn [bind] in Htopics.
  rewrite (topics_loop_ok _ _ _ _ [] Hhs) in Htopics.
  simpl in Htopics. injection Htopics as <-.
  apply in_flat_map in Ht as (ks & Hks & Ht).
  apply in_map_iff in Hks as (s & <- & Hs_in).
  apply in_map_iff in Ht as (kh & <- & Hkh).
  apply in_map_iff in Hkh as (h & <- & Hh_in).
  destruct (initialize_lookup _ _ _ _ _ _ Hconf Hss Hhs Hinit) as [Hin _].
  destruct (Hin (KStr s) (KInt h)) as (m & _ & Hget).
  { apply list_elem_of_In, in_map, Hs_in. }
  { apply list_elem_of_In, in_map, Hh_in. }
  exists s, h, m. repeat split; try assumption.
  rewrite topic_name_str. apply resolve_key_suffix; auto.
Qed.

(** X7.  Keys of the wrong type are out of reach.  A topic names its sensor by
    a string and its horizon by an integer; when the configuration gives
    the sensors as numbers, or the horizons as strings, the init phase
    succeeds all the same and every record then fails in the registry
    lookup with [KeyError]. *)
Theorem mistyped_keys_never_match (conf : list (string * conf_value))
    (vars : locals) (ss hs : list pykey) (st st' : state X) :
  read_conf conf = Ok vars ->
  iter_keys (sensors vars) = Ok ss ->
  iter_keys (horizons vars) = Ok hs ->
  (forall s, s ∈ ss -> exists z, s = KInt z)
  \/ (forall h, h ∈ hs -> exists t, h = KStr t) ->
  initialize conf st = (st', Ok vars) ->
  forall sensor horizon timestamp ftr_vector measurement,
    score_and_emit sensor horizon timestamp ftr_vector measurement st'
    = (st', Raise KeyError).
Proof.
  intros Hconf Hss Hhs Htyped Hinit sensor horizon timestamp ftr_vector
    measurement.
  destruct (initialize_lookup _ _ _ _ _ _ Hconf Hss Hhs Hinit) as [_ Hout].
  apply score_and_emit_lookup_raises, Hout.
  intros [Hs Hh]. destruct Htyped as [Hty|Hty].
  - destruct (Hty _ Hs) as [z Hz]. discriminate.
  - destruct (Hty _ Hh) as [t Ht]. discriminate.
Qed.

(** X8.  A [sensors] entry that is one string, not a list of strings, is
    iterated character by character: the registry gets a model per
    character, and none under the string itself unless it is one
    character long. *)
Theorem sensors_string_is_split (conf : list (string * conf_value))
    (vars : locals) (name : string) (hs : list pykey) (st st' : state X) :
  read_conf conf = Ok vars ->
  sensors vars = CStr name ->
  iter_keys (horizons vars) = Ok hs ->
  initialize conf st = (st', Ok vars) ->
  (forall c h, In c (list_ascii_of_string name) -> h ∈ hs ->
     exists m, registry_get (models st') (KStr (String c EmptyString)) h = Ok m)
  /\ (String.length name <> 1%nat ->
      forall h, registry_get (models st') (KStr name) h = Raise KeyError).
Proof.
  intros Hconf Hs Hhs Hinit.
  assert (Hss : iter_keys (sensors vars)
                = Ok (map (fun c => KStr (String c EmptyString))
                        (list_ascii_of_string name)))
    by (rewrite Hs; reflexivity).
  destruct (initialize_lookup _ _ _ _ _ _ Hconf Hss Hhs Hinit) as [Hin Hout].
  split.
  - intros c h Hc Hh. destruct (Hin (KStr (String c EmptyString)) h)
      as (m & _ & Hget); [|exact Hh|eauto].
    apply list_elem_of_In.
    apply (in_map (fun c => KStr (String c EmptyString))), Hc.
  - intros Hlen h. apply Hout. intros [Hname _].
    apply list_elem_of_In, in_map_iff in Hname as (c & [= <-] & _).
    apply Hlen. reflexivity.
Qed.

End Routing.

Lemma subscribed_topics_reach_a_model_witness :
  exists s h m,
    In s ["temp"] /\ In h [24]
    /\ resolve_key "features_temp_24h" "h" = Ok (s, h)
    /\ registry_get
         (models (fst (initialize sample_conf (toy_start (toy true true) []))))
         (KStr s) (KInt h) = Ok m.
Proof.
  refine (subscribed_topics_reach_a_model (X := toy true true) sample_conf
            sample_vars ["temp"] [24] (toy_start (toy true true) [])
            (fst (initialize sample_conf (toy_start (toy true true) [])))
            ["features_temp_24h"] eq_refl eq_refl eq_refl _ _ eq_refl eq_refl
            eq_refl "features_temp_24h" (or_introl eq_refl)).
  - intros s [<-|[]]. reflexivity.
  - discriminate.
Defined.

Lemma mistyped_keys_never_match_witness :
  score_and_emit "temp" 24 VNone VNone VNone
    (fst (initialize [("sensors", CStrs ["temp"]);
                      ("prediction_horizons", CStrs ["24"])]
            (toy_start (toy true true) [])))
  = (fst (initialize [("sensors", CStrs ["temp"]);
                      ("prediction_horizons", CStrs ["24"])]
            (toy_start (toy true true) [])),
     Raise KeyError).
Proof.
  refine (mistyped_keys_never_match (X := toy true true)
            [("sensors", CStrs ["temp"]); ("prediction_horizons", CStrs ["24"])]
            {| sensors := CStrs ["temp"]; horizons := CStrs ["24"];
               kwargs := []; time_offset := "h" |}
            [KStr "temp"] [KStr "24"] (toy_start (toy true true) []) _
            eq_refl eq_refl eq_refl _ eq_refl "temp" 24 VNone VNone VNone).
  right. intros h Hh. apply list_elem_of_singleton in Hh. eauto.
Defined.

Lemma sensors_string_is_split_witness :
  registry_get
    (models (fst (initialize [("sensors", CStr "temp");
                              ("prediction_horizons", CInts [24])]
                    (toy_start (toy true true) []))))
    (KStr "temp") (KInt 24) = Raise KeyError.
Proof.
  refine (proj2 (sensors_string_is_split (X := toy true true)
                   [("sensors", CStr "temp"); ("prediction_horizons", CInts [24])]
                   {| sensors := CStr "temp"; horizons := CInts [24];
                      kwargs := []; time_offset := "h" |}
                   "temp" [KInt 24] (toy_start (toy true true) []) _
                   eq_refl eq_refl eq_refl eq_refl) _ (KInt 24)).
  discriminate.
Defined.

(** ** The batch phases (lines 22-41 and 155-193) *)

Section Phases.

Context {X : Externals}.

Lemma path_join_relative a b :
  a <> EmptyString -> is_absolute b = false ->
  PyStr.index_from_end (list_ascii_of_string a) 1 <> Ok "/"%char ->
  PyStr.path_join a b = a ++ "/" ++ b.
Proof.
  intros Ha Hb Hlast. unfold PyStr.path_join.
  destruct a as [|ca a]; [congruence|].
  destruct (PyStr.index_from_end (list_ascii_of_string (String ca a)) 1)
    as [c|e] eqn:Hc.
  - assert (Hne : c <> "/"%char) by congruence.
    destruct b as [|cb b].
    + destruct c as [[] [] [] [] [] [] [] []]; try reflexivity. congruence.
    + destruct cb as [[] [] [] [] [] [] [] []]; try discriminate;
        destruct c as [[] [] [] [] [] [] [] []]; try reflexivity; congruence.
  - destruct b as [|cb b]; [reflexivity|].
    destruct cb as [[] [] [] [] [] [] [] []]; try discriminate; reflexivity.
Qed.

(** X9.  The data file of a pair lies in [../../data/fused] and is named
    [<sensor>_<horizon><time_period>.json], unless the text of the sensor
    starts with a slash: the join then drops the directory and the path is
    the file name alone. *)
Theorem get_data_file_name_path (s h : pykey) (tp : string)
    (st st' : state X) (p : string) :
  get_data_file_name s h tp st = (st', Ok p) ->
  p = (if is_absolute (format_key s) then "" else "../../data/fused/")
      ++ format_key s ++ "_" ++ format_key h ++ tp ++ ".json".
Proof.
  unfold get_data_file_name, bindM, ret.
  destruct (ensure_dir "../../data/fused" st) as [st1 [[]|e]]; [|discriminate].
  intros [= _ <-].
  destruct (is_absolute (format_key s)) eqn:Habs.
  - destruct (format_key s) as [|c r]; [discriminate|].
    destruct c as [[] [] [] [] [] [] [] []]; try discriminate. reflexivity.
  - rewrite path_join_relative.
    + reflexivity.
    + discriminate.
    + destruct (format_key s) as [|c r]; [reflexivity|].
      destruct c as [[] [] [] [] [] [] [] []]; try reflexivity. discriminate.
    + discriminate.
Qed.


Lemma save_one_raises s h (st st1 : state X) filename m m' w' e :
  get_model_file_name s h default_time_period st = (st1, Ok filename) ->
  registry_get (models st) s h = Ok m ->
  save X m filename (world st1) = (m', w', Raise e) ->
  save_one s h st
  = ({| models := registry_update (models st) s h m'; world := w';
        trace := (trace st1 ++ [ESave filename])%list |}, Raise e).
Proof.
  intros Hname Hget Hsave.
  pose proof (get_model_file_name_models _ _ _ _ _ _ Hname) as Hms.
  unfold save_one. unfold bindM at 1. unfold get_model at 1. rewrite Hget.
  unfold bindM at 1. rewrite Hname.
  unfold bindM, call_method. rewrite Hms, Hget, Hsave. reflexivity.
Qed.

(** X11.  The save phase does not catch the exception of a per-model save:
    when the saves before the pair [(s, h)] succeed and the save of that
    pair raises [e], the phase ends there with [e], its last action being
    that save; no later model is saved. *)
Theorem save_failure_aborts (vars : locals) (ss1 ss2 hs1 hs2 : list pykey)
    (s h : pykey) (st st1 st2 st3 : state X) (filename : string)
    (m m' : Model X) (w' : World X) (e : exn) :
  iter_keys (sensors vars) = Ok (ss1 ++ s :: ss2)%list ->
  iter_keys (horizons vars) = Ok (hs1 ++ h :: hs2)%list ->
  for_each ss1 (fun sensor => for_in (horizons vars) (save_one sensor))
    (record (EPrint (Text "=== Saving phase ===")) st) = (st1, Ok tt) ->
  for_each hs1 (save_one s) st1 = (st2, Ok tt) ->
  get_model_file_name s h default_time_period st2 = (st3, Ok filename) ->
  registry_get (models st2) s h = Ok m ->
  save X m filename (world st3) = (m', w', Raise e) ->
  save_phase vars st
  = ({| models := registry_update (models st2) s h m'; world := w';
        trace := (trace st3 ++ [ESave filename])%list |}, Raise e).
Proof.
  intros Hss Hhs Hpre1 Hpre2 Hname Hget Hsave.
  unfold save_phase, bindM, print, emit.
  rewrite (for_in_ok _ _ _ _ Hss), for_each_app, Hpre1, for_each_cons.
  rewrite (for_in_ok _ _ _ _ Hhs), for_each_app, Hpre2, for_each_cons.
  rewrite (save_one_raises _ _ _ _ _ _ _ _ _ Hname Hget Hsave).
  reflexivity.
Qed.

(** X12.  The model file of a pair, as the save and the load of that pair use
    it: [models/model_<sensor>_<horizon>h], whatever the unit of the
    configuration.  A save or load that returns has created the directory
    if it was missing, has made the one call on that path, and has printed
    the path. *)
Theorem model_file_of_pair (s h : pykey) (st st' : state X) :
  let p := "models/" ++ model_label s h "h" in
  let dir := if isdir X "models" (world st) then [] else [EMakedirs "models"] in
  (save_one s h st = (st', Ok tt) ->
   trace st' = (trace st ++ dir ++ [ESave p; EPrint (SavedModel p)])%list)
  /\ (load_one s h st = (st', Ok tt) ->
      trace st' = (trace st ++ dir ++ [ELoad p; EPrint (LoadedModel p)])%list).
Proof.
  intros p dir.
  assert (Hname : forall st1 r,
    get_model_file_name s h default_time_period st = (st1, r) ->
    trace st1 = (trace st ++ dir)%list /\ (forall q, r = Ok q -> q = p)).
  { unfold get_model_file_name, bindM, ret, ensure_dir, external. subst dir.
    destruct (isdir X "models" (world st)).
    - intros st1 r [= <- <-]. rewrite app_nil_r.
      split; [reflexivity|]. intros q [= <-]. reflexivity.
    - destruct (makedirs X "models" (world st)) as [w [[]|e]];
        intros st1 r [= <- <-]; (split; [reflexivity|]).
      + intros q [= <-]. reflexivity.
      + discriminate. }
  split.
  - unfold save_one. unfold bindM at 1. unfold get_model at 1.
    destruct (registry_get (models st) s h) as [m|e]; [|discriminate].
    unfold bindM at 1.
    destruct (get_model_file_name s h default_time_period st)
      as [st1 [q|e]] eqn:Hq; [|discriminate].
    destruct (Hname _ _ eq_refl) as [Htr Hp]. rewrite (Hp q eq_refl).
    unfold bindM, call_method, print, emit, record.
    destruct (registry_get (models st1) s h) as [m1|e]; [|discriminate].
    destruct (save X m1 p (world st1)) as [[m' w] [[]|e]]; [|discriminate].
    intros [= <-]. cbn [trace]. rewrite Htr, <- !app_assoc. reflexivity.
  - unfold load_one. unfold bindM at 1. unfold get_model at 1.
    destruct (registry_get (models st) s h) as [m|e]; [|discriminate].
    unfold bindM at 1.
    destruct (get_model_file_name s h default_time_period st)
      as [st1 [q|e]] eqn:Hq; [|discriminate].
    destruct (Hname _ _ eq_refl) as [Htr Hp]. rewrite (Hp q eq_refl).
    unfold bindM, call_method, print, emit, record.
    destruct (registry_get (models st1) s h) as [m1|e]; [|discriminate].
    destruct (load X m1 p (world st1)) as [[m' w] [[]|e]]; [|discriminate].
    intros [= <-]. cbn [trace]. rewrite Htr, <- !app_assoc. reflexivity.
Qed.

End Phases.

Lemma get_data_file_name_path_witness :
  "../../data/fused/temp_24h.json"
  = (if is_absolute (format_key (KStr "temp")) then "" else "../../data/fused/")
    ++ format_key (KStr "temp") ++ "_" ++ format_key (KInt 24) ++ "h" ++ ".json".
Proof.
  exact (get_data_file_name_path (X := toy true true) (KStr "temp") (KInt 24)
           "h" (toy_start (toy true true) [])
           (record (EMakedirs "../../data/fused")
              (toy_start (toy true true) ["../../data/fused"]))
           "../../data/fused/temp_24h.json" eq_refl).
Defined.

(** A sensor named by an absolute path takes the data file out of the
    fused-data directory. *)
Example data_file_of_absolute_sensor :
  snd (get_data_file_name (X := toy true true) (KStr "/tmp/x") (KInt 24) "h"
         (toy_start (toy true true) []))
  = Ok "/tmp/x_24h.json".
Proof. reflexivity. Qed.


Lemma save_failure_aborts_witness :
  save_phase (X := toy_readonly) two_sensor_vars
    (fst (init_models two_sensor_vars (toy_start toy_readonly ["models"])))
  = (@Build_state toy_readonly
       {[ KStr "a" := {[ KInt 1 := 0 ]}; KStr "b" := {[ KInt 1 := 0 ]} ]}
       ["models"]
       [EPrint (Text "Initializing model_a_1h");
        EPrint (Text "Initializing model_b_1h");
        EPrint (Text "=== Saving phase ===");
        ESave "models/model_a_1h"],
     Raise (OtherException "PersistenceError")).
Proof.
  exact (save_failure_aborts (X := toy_readonly) two_sensor_vars
           [] [KStr "b"] [] [] (KStr "a") (KInt 1)
           (fst (init_models two_sensor_vars (toy_start toy_readonly ["models"])))
           (record (EPrint (Text "=== Saving phase ==="))
              (fst (init_models two_sensor_vars
                      (toy_start toy_readonly ["models"]))))
           (record (EPrint (Text "=== Saving phase ==="))
              (fst (init_models two_sensor_vars
                      (toy_start toy_readonly ["models"]))))
           (record (EPrint (Text "=== Saving phase ==="))
              (fst (init_models two_sensor_vars
                      (toy_start toy_readonly ["models"]))))
           "models/model_a_1h" 0 0 ["models"]
           (OtherException "PersistenceError")
           eq_refl eq_refl eq_refl eq_refl eq_refl eq_refl eq_refl).
Defined.

Lemma model_file_of_pair_witness :
  trace (fst (save_one (X := toy true true) (KStr "temp") (KInt 24)
                (toy_ready sample_vars [])))
  = [EPrint (Text "Initializing model_temp_24h");
     EMakedirs "models";
     ESave "models/model_temp_24h";
     EPrint (SavedModel "models/model_temp_24h")].
Proof.
  exact (proj1 (model_file_of_pair (X := toy true true) (KStr "temp") (KInt 24)
                  (toy_ready sample_vars [])
                  (fst (save_one (KStr "temp") (KInt 24)
                          (toy_ready sample_vars []))))
           eq_refl).
Defined.

(** ** What a record can change (lines 216-255) *)

Section LoopInvariants.

Context {X : Externals}.

Lemma only_changes_refl s h (ms : gmap pykey (gmap pykey (Model X))) :
  only_changes s h ms ms.
Proof. split; [reflexivity | tauto]. Qed.

Lemma only_changes_trans s h (ms1 ms2 ms3 : gmap pykey (gmap pykey (Model X))) :
  only_changes s h ms1 ms2 -> only_changes s h ms2 ms3 ->
  only_changes s h ms1 ms3.
Proof.
  intros [H1 K1] [H2 K2]. split.
  - intros s' h' Hne. rewrite (H2 s' h' Hne). apply H1, Hne.
  - tauto.
Qed.

Lemma only_changes_update s h (ms : gmap pykey (gmap pykey (Model X))) m0 m :
  registry_get ms s h = Ok m0 ->
  only_changes s h ms (registry_update ms s h m).
Proof.
  intros Hget. split.
  - intros s' h' Hne. unfold registry_get, registry_update in *.
    destruct (ms !! s) as [by_h|] eqn:Hs; [|discriminate].
    destruct (decide (s' = s)) as [->|Hs'].
    + rewrite lookup_insert_eq, Hs.
      assert (h' <> h) by congruence.
      rewrite lookup_insert_ne by congruence. reflexivity.
    + rewrite lookup_insert_ne by congruence. reflexivity.
  - rewrite (registry_get_update _ _ _ _ m Hget), Hget. split; discriminate.
Qed.

Lemma touches_bind {A B : Type} s h (c : M X A) (k : A -> M X B) :
  touches_only s h c -> (forall a, touches_only s h (k a)) ->
  touches_only s h (bindM c k).
Proof.
  intros Hc Hk st st' r. unfold bindM.
  destruct (c st) as [st1 [a|e]] eqn:Hrun.
  - intros H. eapply only_changes_trans; [eapply Hc, Hrun | eapply Hk, H].
  - intros [= <- _]. eapply Hc, Hrun.
Qed.

Lemma touches_same_models {A : Type} s h (c : M X A) :
  (forall st st' r, c st = (st', r) -> models st' = models st) ->
  touches_only s h c.
Proof.
  intros H st st' r Hrun. rewrite (H _ _ _ Hrun). apply only_changes_refl.
Qed.

Lemma touches_lift {A : Type} s h (r : result A) :
  touches_only (X := X) s h (lift r).
Proof. apply touches_same_models. intros st st' r' [= <- _]. reflexivity. Qed.

Lemma touches_get_model s h s' h' :
  touches_only (X := X) s h (get_model s' h').
Proof. apply touches_same_models. intros st st' r' [= <- _]. reflexivity. Qed.

Lemma touches_emit s h ev : touches_only (X := X) s h (emit ev).
Proof. apply touches_same_models. intros st st' r' [= <- _]. reflexivity. Qed.

Lemma touches_external {A : Type} s h ev
    (f : World X -> World X * result A) :
  touches_only s h (external ev f).
Proof.
  apply touches_same_models. intros st st' r. unfold external.
  destruct (f (world st)) as [w r']. intros [= <- _]. reflexivity.
Qed.

Lemma touches_call_pure {A : Type} s h
    (method : Model X -> Model X * result A) :
  touches_only s h (call_pure s h method).
Proof.
  intros st st' r. unfold call_pure.
  destruct (registry_get (models st) s h) as [m|e] eqn:Hget.
  - destruct (method m) as [m' r']. intros [= <- _]. simpl.
    eapply only_changes_update, Hget.
  - intros [= <- _]. apply only_changes_refl.
Qed.

Lemma touches_try_except {A : Type} s h (body : M X A) (handler : exn -> M X A) :
  touches_only s h body -> (forall e, touches_only s h (handler e)) ->
  touches_only s h (try_except body handler).
Proof.
  intros Hb Hh st st' r. unfold try_except.
  destruct (body st) as [st1 [a|e]] eqn:Hrun.
  - intros [= <- _]. eapply Hb, Hrun.
  - destruct (is_Exception e).
    + intros H. eapply only_changes_trans; [eapply Hb, Hrun | eapply Hh, H].
    + intros [= <- _]. eapply Hb, Hrun.
Qed.

Lemma touches_score_and_emit sensor horizon timestamp ftr_vector measurement :
  touches_only (X := X) (KStr sensor) (KInt horizon)
    (score_and_emit sensor horizon timestamp ftr_vector measurement).
Proof.
  unfold score_and_emit.
  apply touches_bind; [apply touches_get_model | intros _].
  apply touches_bind; [apply touches_call_pure | intros predictions].
  apply touches_bind; [apply touches_lift | intros value0].
  apply touches_bind; [apply touches_get_model | intros model].
  apply touches_bind; [apply touches_call_pure | intros output].
  apply touches_bind; [apply touches_external | intros future].
  apply touches_bind; [apply touches_emit | intros _].
  apply touches_try_except; [apply touches_external | intros e].
  apply touches_emit.
Qed.

Lemma decode_record_models msg (st st' : state X) r :
  decode_record msg st = (st', r) -> models st' = models st.
Proof.
  unfold decode_record, bindM, lift, ret.
  destruct (eval (value msg)) as [t [rec|e]]; [|intros [= <- _]; reflexivity].
  destruct (getitem_str rec "timestamp"); [|intros [= <- _]; reflexivity].
  destruct (getitem_str rec "ftr_vector") as [fv|];
    [|intros [= <- _]; reflexivity].
  destruct (getitem_0 fv); intros [= <- _]; reflexivity.
Qed.

(** X13.  For a record whose payload is unparsable or a data literal, one
    turn of the loop changes at most the model its topic names: the models
    of all other pairs stay as they are, no entry is added or removed, and
    a record whose topic does not resolve changes nothing in the registry.
    A payload that is evaluated with [models] in scope can do anything to
    the registry; such payloads are left out. *)
Theorem consume_touches_one_model (time_offset0 : string) (msg : message)
    (st st' : state X) (r : result unit) :
  plain_payload (value msg) ->
  consume time_offset0 msg st = (st', r) ->
  (forall sensor horizon,
     resolve_key (topic msg) time_offset0 = Ok (sensor, horizon) ->
     only_changes (KStr sensor) (KInt horizon) (models st) (models st'))
  /\ (forall e, resolve_key (topic msg) time_offset0 = Raise e ->
        models st' = models st).
Proof.
  intros _ Hrun.
  assert (Hhandle : forall st1 r1,
    handle_record time_offset0 msg st = (st1, r1) ->
    match resolve_key (topic msg) time_offset0 with
    | Ok (sensor, horizon) =>
        only_changes (KStr sensor) (KInt horizon) (models st) (models st1)
    | Raise _ => models st1 = models st
    end).
  { intros st1 r1. unfold handle_record. unfold bindM at 1.
    destruct (decode_record msg st) as [st0 [[[ts fv] meas]|e]] eqn:Hd.
    - pose proof (decode_record_models _ _ _ _ Hd) as Hm.
      unfold bindM at 1. unfold lift.
      destruct (resolve_key (topic msg) time_offset0) as [[sensor horizon]|e].
      + intros H. rewrite <- Hm. eapply touches_score_and_emit, H.
      + intros [= <- _]. exact Hm.
    - pose proof (decode_record_models _ _ _ _ Hd) as Hm.
      intros [= <- _].
      destruct (resolve_key (topic msg) time_offset0) as [[sensor horizon]|e'].
      + rewrite Hm. apply only_changes_refl.
      + exact Hm. }
  unfold consume, try_except in Hrun.
  destruct (handle_record time_offset0 msg st) as [st1 [[]|e]] eqn:Hh.
  - injection Hrun as <- _. specialize (Hhandle _ _ eq_refl).
    split.
    + intros sensor horizon Hr. rewrite Hr in Hhandle. exact Hhandle.
    + intros e Hr. rewrite Hr in Hhandle. exact Hhandle.
  - specialize (Hhandle _ _ eq_refl).
    assert (Hm : models st' = models st1).
    { destruct (is_Exception e); injection Hrun as <- _; reflexivity. }
    rewrite Hm. split.
    + intros sensor horizon Hr. rewrite Hr in Hhandle. exact Hhandle.
    + intros e' Hr. rewrite Hr in Hhandle. exact Hhandle.
Qed.

Lemma consume_keeps_keys time_offset0 msg (st st' : state X) r :
  consume time_offset0 msg st = (st', r) ->
  forall s h,
    registry_get (models st') s h = Raise KeyError
    <-> registry_get (models st) s h = Raise KeyError.
Proof.
  intros Hrun s h.
  unfold consume, try_except in Hrun.
  assert (Hh : forall st1 r1,
    handle_record time_offset0 msg st = (st1, r1) ->
    registry_get (models st1) s h = Raise KeyError
    <-> registry_get (models st) s h = Raise KeyError).
  { intros st1 r1. unfold handle_record. unfold bindM at 1.
    destruct (decode_record msg st) as [st0 [[[ts fv] meas]|e]] eqn:Hd;
      pose proof (decode_record_models _ _ _ _ Hd) as Hm.
    - unfold bindM at 1. unfold lift.
      destruct (resolve_key (topic msg) time_offset0) as [[sensor horizon]|e].
      + intros H. apply touches_score_and_emit in H as [Hother Hkey].
        rewrite <- Hm.
        destruct (decide ((s, h) = (KStr sensor, KInt horizon))) as [[= -> ->]|Hne].
        * exact Hkey.
        * rewrite (Hother s h Hne). tauto.
      + intros [= <- _]. rewrite Hm. tauto.
    - intros [= <- _]. rewrite Hm. tauto. }
  destruct (handle_record time_offset0 msg st) as [st1 [[]|e]].
  - injection Hrun as <- _. eapply Hh. reflexivity.
  - assert (Hm : models st' = models st1).
    { destruct (is_Exception e); injection Hrun as <- _; reflexivity. }
    rewrite Hm. eapply Hh. reflexivity.
Qed.

(** X14.  The prediction loop keeps the shape of the registry: when every
    record that arrives has a payload that is unparsable or a data literal,
    then however the loop ends, a pair has a model after the loop if and
    only if it had one before. *)
Theorem predict_loop_keeps_registry_keys (time_offset0 : string)
    (msgs : list message) (st st' : state X) (r : result unit) :
  Forall (fun msg => plain_payload (value msg)) msgs ->
  predict_loop time_offset0 msgs st = (st', r) ->
  forall s h,
    registry_get (models st') s h = Raise KeyError
    <-> registry_get (models st) s h = Raise KeyError.
Proof.
  unfold predict_loop. intros Hplain. revert st.
  induction Hplain as [|msg msgs _ _ IH]; intros st Hrun s h.
  - injection Hrun as <- _. tauto.
  - rewrite for_each_cons in Hrun.
    destruct (consume time_offset0 msg st) as [st1 [[]|e]] eqn:Hc.
    + rewrite (IH _ Hrun s h). eapply consume_keeps_keys, Hc.
    + injection Hrun as <- _. eapply consume_keeps_keys, Hc.
Qed.

End LoopInvariants.

Lemma consume_touches_one_model_witness :
  only_changes (X := toy true true) (KStr "temp") (KInt 24)
    (models (toy_ready sample_vars []))
    (models (fst (consume "h" good_record (toy_ready sample_vars [])))).
Proof.
  exact (proj1 (consume_touches_one_model (X := toy true true) "h" good_record
                  (toy_ready sample_vars [])
                  (fst (consume "h" good_record (toy_ready sample_vars [])))
                  (Ok tt) eq_refl eq_refl) "temp" 24 eq_refl).
Defined.

Lemma predict_loop_keeps_registry_keys_witness :
  registry_get
    (models (fst (predict_loop (X := toy true true) "h"
                    [bad_record; good_record; good_record]
                    (toy_ready sample_vars []))))
    (KStr "temp") (KInt 25) = Raise KeyError
  <-> registry_get (models (toy_ready sample_vars [])) (KStr "temp") (KInt 25)
      = Raise KeyError.
Proof.
  apply (predict_loop_keeps_registry_keys (X := toy true true) "h"
           [bad_record; good_record; good_record]
           (toy_ready sample_vars [])
           (fst (predict_loop "h" [bad_record; good_record; good_record]
                   (toy_ready sample_vars [])))
           (Ok tt)).
  - repeat constructor.
  - reflexivity.
Defined.

(** ** What a payload must look like (lines 218-221) *)

Section Decoding.

Context {X : Externals}.

(** X17.  A payload that compiles to a data literal is decoded without any
    effect on the state, whether the decoding succeeds or not, and fails
    with [KeyError], [TypeError] or [IndexError] only. *)
Theorem data_payload_decodes_quietly (msg : message) (ex : pyexpr)
    (st st' : state X) (r : result (pyval * pyval * pyval)) :
  value msg = Source ex ->
  is_data ex = true ->
  decode_record msg st = (st', r) ->
  st' = st
  /\ forall e, r = Raise e -> e = KeyError \/ e = TypeError \/ e = IndexError.
Proof.
  intros Hv Hdata Hrun.
  assert (Hplain : plain_payload (value msg)) by (rewrite Hv; exact Hdata).
  destruct (decode_record_plain _ _ _ _ Hplain Hrun) as [-> _].
  split; [reflexivity|]. intros e ->.
  revert Hrun. unfold decode_record, bindM, lift, ret.
  rewrite Hv. simpl.
  destruct (eval_data ex Hdata) as [v ->].
  destruct v as [| | | | |l|d]; simpl; try (intros [= _ <-]; auto).
  destruct (dict_get "timestamp" d); [|intros [= _ <-]; auto].
  destruct (dict_get "ftr_vector" d) as [fv|]; [|intros [= _ <-]; auto].
  destruct fv as [| | | |s|l|d']; simpl; try (intros [= _ <-]; auto).
  - destruct s; [intros [= _ <-]; auto | discriminate].
  - destruct l; [intros [= _ <-]; auto | discriminate].
Qed.

Lemma eval_pairs_data_prefix before : forall acc,
  forallb (fun p => is_data (snd p)) before = true ->
  exists acc', forall rest,
    eval_pairs eval_expr (before ++ rest)%list acc
    = eval_pairs eval_expr rest acc'.
Proof.
  induction before as [|[k e] before IH]; intros acc Hd; simpl in *.
  - exists acc. reflexivity.
  - apply andb_true_iff in Hd as [Hd1 Hd2].
    destruct (eval_data e Hd1) as [v Hv].
    destruct (IH (dict_set k v acc) Hd2) as [acc' Hacc].
    exists acc'. intros rest. rewrite Hv, Hacc.
    destruct (eval_pairs eval_expr rest acc'). reflexivity.
Qed.

(** X18.  JSON's constants are not Python's: a payload in which a field has the
    value [true], [false], [null] or any other unbound name, after fields
    that are data, is not decoded; the record is dropped with the consumer
    error [NameError] and nothing else happens. *)
Theorem json_constant_rejected (time_offset0 : string) (msg : message)
    (before after : list (string * pyexpr)) (key name : string)
    (st : state X) :
  value msg = Source (EDict (before ++ (key, EUnbound name) :: after)%list) ->
  forallb (fun p => is_data (snd p)) before = true ->
  consume time_offset0 msg st
  = (record (EPrint (ConsumerError (NameError name))) st, Ok tt).
Proof.
  intros Hv Hd.
  assert (Heval : eval (value msg) = ([], Raise (NameError name))).
  { rewrite Hv. simpl.
    destruct (eval_pairs_data_prefix before [] Hd) as [acc' ->].
    reflexivity. }
  assert (Hh : handle_record time_offset0 msg st = (st, Raise (NameError name))).
  { unfold handle_record, bindM, decode_record. rewrite Heval. simpl.
    rewrite app_nil_r. destruct st; reflexivity. }
  unfold consume, try_except. rewrite Hh. reflexivity.
Qed.

End Decoding.

Lemma data_payload_decodes_quietly_witness :
  toy_ready sample_vars [] = toy_ready sample_vars []
  /\ forall e, Raise (A := pyval * pyval * pyval) KeyError = Raise e ->
       e = KeyError \/ e = TypeError \/ e = IndexError.
Proof.
  exact (data_payload_decodes_quietly (X := toy true true)
           {| topic := "features_temp_24h";
              value := Source (EDict [("timestamp", EInt 1700000000)]) |}
           (EDict [("timestamp", EInt 1700000000)])
           (toy_ready sample_vars []) (toy_ready sample_vars [])
           (Raise KeyError) eq_refl eq_refl eq_refl).
Defined.

Lemma json_constant_rejected_witness :
  consume (X := toy true true) "h"
    {| topic := "features_temp_24h";
       value := Source (EDict [("timestamp", EInt 1700000000);
                               ("ftr_vector", EList [EFloat (20 # 1)]);
                               ("valid", EUnbound "true")]) |}
    (toy_ready sample_vars [])
  = (record (EPrint (ConsumerError (NameError "true")))
       (toy_ready sample_vars []), Ok tt).
Proof.
  exact (json_constant_rejected (X := toy true true) "h"
           {| topic := "features_temp_24h";
              value := Source (EDict [("timestamp", EInt 1700000000);
                                      ("ftr_vector", EList [EFloat (20 # 1)]);
                                      ("valid", EUnbound "true")]) |}
           [("timestamp", EInt 1700000000);
            ("ftr_vector", EList [EFloat (20 # 1)])] [] "valid" "true"
           (toy_ready sample_vars []) eq_refl eq_refl).
Defined.

(** ** What a record can publish (lines 230-252) *)

Section Emission.

Context {X : Externals}.




(** X20.  Without the entry [bootstrap_servers] the prediction phase ends with
    [KeyError] right after its header: no consumer or producer is
    created and no record is handled. *)
Theorem predict_phase_needs_bootstrap_servers
    (conf : list (string * conf_value)) (vars : locals) (msgs : list message)
    (topics : list string) (st : state X) :
  dict_get "bootstrap_servers" conf = None ->
  get_input_data_topics (sensors vars) (horizons vars) (time_offset vars)
  = Ok topics ->
  predict_phase conf vars msgs st
  = (record (EPrint (Text "=== Predictions phase ===")) st, Raise KeyError).
Proof.
  intros Hconf Htopics.
  unfold predict_phase, bindM, print, emit, lift, conf_item.
  rewrite Htopics, Hconf. reflexivity.
Qed.

End Emission.


Lemma predict_phase_needs_bootstrap_servers_witness :
  predict_phase (X := toy true true)
    [("sensors", CStrs ["temp"]); ("prediction_horizons", CInts [24])]
    {| sensors := CStrs ["temp"]; horizons := CInts [24]; kwargs := [];
       time_offset := "h" |}
    [good_record] (toy_ready sample_vars [])
  = (record (EPrint (Text "=== Predictions phase ==="))
       (toy_ready sample_vars []), Raise KeyError).
Proof.
  exact (predict_phase_needs_bootstrap_servers (X := toy true true)
           [("sensors", CStrs ["temp"]); ("prediction_horizons", CInts [24])]
           {| sensors := CStrs ["temp"]; horizons := CInts [24]; kwargs := [];
              time_offset := "h" |}
           [good_record] ["features_temp_24h"] (toy_ready sample_vars [])
           eq_refl eq_refl).
Defined.
